(** * Persistence API of the postgis driver (datacube/drivers/postgis/_api.py)

    A shallow embedding of [PostgisDbAPI]: the relations the module reads
    and writes are lists of rows, a connection is a record threaded through
    every call, and a Python exception is a value of [Result].  Statements
    the module hands to the connection are given their relational meaning
    on those lists. *)

From Stdlib Require Import ZArith List String Ascii Bool Lia Permutation Sorted.
Import ListNotations.
Open Scope string_scope.
Open Scope list_scope.
Open Scope Z_scope.

Set Implicit Arguments.
#[local] Set Warnings "-register-all".

(** ** Exceptions and results *)

Inductive Exception : Type :=
| AssertionError
| NotImplementedError
| ValueError (msg : string)
| RuntimeError (msg : string)
| AttributeError
| KeyError
| TypeError
| IndexError
| DatabaseError (msg : string).

Inductive Result (A : Type) : Type :=
| Ok (a : A)
| Raise (e : Exception).

Arguments Ok {A} a.
Arguments Raise {A} e.

(** ** Data model *)

Definition UUID := Z.
Definition Time := Z.

(** Metadata documents: the JSON values stored in the document columns. *)
Inductive Doc : Type :=
| DNull
| DStr (s : string)
| DNum (n : Z)
| DList (items : list Doc)
| DDict (items : list (string * Doc)).

Record DatasetRow : Type := mkDataset {
  ds_id : UUID;
  ds_product_ref : Z;
  ds_metadata_type_ref : option Z;
  ds_metadata_doc : Doc;
  ds_added : Time;
  ds_added_by : string;
  ds_archived : option Time
}.

Record LocationRow : Type := mkLocation {
  loc_id : Z;
  loc_dataset_ref : UUID;
  loc_uri_scheme : string;
  loc_uri_body : string;
  loc_added : Time;
  loc_archived : option Time
}.

Record SourceRow : Type := mkSource {
  src_classifier : string;
  src_dataset_ref : UUID;
  src_source_dataset_ref : UUID
}.

Record ProductRow : Type := mkProduct {
  prod_id : Z;
  prod_name : string;
  prod_metadata_type_ref : Z;
  prod_metadata : Doc;
  prod_definition : Doc
}.

Record MetadataTypeRow : Type := mkMetadataType {
  mt_id : Z;
  mt_name : string;
  mt_definition : Doc
}.

Record Database : Type := mkDatabase {
  tbl_dataset : list DatasetRow;
  tbl_dataset_location : list LocationRow;
  tbl_dataset_source : list SourceRow;
  tbl_product : list ProductRow;
  tbl_metadata_type : list MetadataTypeRow
}.

(** ** Relations, columns and clauses

    The mapped classes of [_schema] the module imports; a class and its
    [__table__] are identified. *)
Inductive Relation : Type :=
| DatasetLocation
| Dataset
| Product
| MetadataType
| DatasetSource.

Definition Relation_eqb (a b : Relation) : bool :=
  match a, b with
  | DatasetLocation, DatasetLocation => true
  | Dataset, Dataset => true
  | Product, Product => true
  | MetadataType, MetadataType => true
  | DatasetSource, DatasetSource => true
  | _, _ => false
  end.

(** A range of timestamps as the backend's [tstzrange]: a missing bound is
    infinite. *)
Record TimeRange : Type := mkTimeRange {
  lower : option Time;
  upper : option Time;
  lower_inc : bool;
  upper_inc : bool
}.

Inductive Value : Type :=
| VNull
| VInt (n : Z)
| VStr (s : string)
| VTime (t : Time)
| VRange (r : TimeRange)
| VDoc (d : Doc).

(** A column expression reads one row of one relation. *)
Inductive ColumnExpr : Type :=
| DatasetColumn (f : DatasetRow -> Value)
| LocationColumn (f : LocationRow -> Value)
| SourceColumn (f : SourceRow -> Value)
| ProductColumn (f : ProductRow -> Value)
| MetadataTypeColumn (f : MetadataTypeRow -> Value).

Definition column_table (col : ColumnExpr) : Relation :=
  match col with
  | DatasetColumn _ => Dataset
  | LocationColumn _ => DatasetLocation
  | SourceColumn _ => DatasetSource
  | ProductColumn _ => Product
  | MetadataTypeColumn _ => MetadataType
  end.

(** A boolean SQL expression: a test on a column expression, [or_], [and_]. *)
Inductive Clause : Type :=
| Test (col : ColumnExpr) (p : Value -> bool)
| or_ (clauses : list Clause)
| and_ (clauses : list Clause).

Fixpoint clause_tables (cl : Clause) : list Relation :=
  match cl with
  | Test col _ => [column_table col]
  | or_ cs => flat_map clause_tables cs
  | and_ cs => flat_map clause_tables cs
  end.

(** ** Fields and expressions ([_fields], [datacube.index.fields])

    Of a field the module reads [name], [required_alchemy_table],
    [alchemy_expression] and, when the field has one, [extract]; [extract]
    gives a value, None, or raises. *)
Record PgField : Type := mkField {
  field_name : string;
  required_alchemy_table : Relation;
  alchemy_expression : ColumnExpr;
  extract : option (Doc -> Result (option Value))
}.

(** Of an expression the module reads [field], and then [exprs] on an
    [OrExpression] and [alchemy_expression] on any other. *)
Inductive Expression : Type :=
| PgExpression (field : PgField) (alchemy_expr : Clause)
| OrExpression (field : PgField) (exprs : list Expression).

Definition field (e : Expression) : PgField :=
  match e with
  | PgExpression f _ => f
  | OrExpression f _ => f
  end.

(** What [dynamic.check_dynamic_fields] is handed, in argument order. *)
Record DynamicCall : Type := mkDynamicCall {
  dc_concurrently : bool;
  dc_dataset_filter : Clause;
  dc_excluded_field_names : list string;
  dc_field_keys : list string;
  dc_name : string;
  dc_rebuild_indexes : bool;
  dc_rebuild_view : bool
}.

(** The connection: the store behind it, whether a transaction is open,
    what [now()] and the session user evaluate to, the serial of the
    location table, how many statements were executed on it, and the calls
    made to the index/view builder. *)
Record Connection : Type := mkConnection {
  conn_db : Database;
  conn_in_transaction : bool;
  conn_now : Time;
  conn_user : string;
  conn_location_seq : Z;
  conn_statements : nat;
  conn_dynamic : list DynamicCall
}.

Definition with_db (c : Connection) (d : Database) : Connection :=
  mkConnection d (conn_in_transaction c) (conn_now c) (conn_user c)
               (conn_location_seq c) (conn_statements c) (conn_dynamic c).

Definition with_datasets (d : Database) (rows : list DatasetRow) : Database :=
  mkDatabase rows (tbl_dataset_location d) (tbl_dataset_source d) (tbl_product d) (tbl_metadata_type d).

Definition with_locations (d : Database) (rows : list LocationRow) : Database :=
  mkDatabase (tbl_dataset d) rows (tbl_dataset_source d) (tbl_product d) (tbl_metadata_type d).

Definition with_products (d : Database) (rows : list ProductRow) : Database :=
  mkDatabase (tbl_dataset d) (tbl_dataset_location d) (tbl_dataset_source d) rows (tbl_metadata_type d).

(** One more statement went through [self._connection.execute]. *)
Definition executed (c : Connection) : Connection :=
  mkConnection (conn_db c) (conn_in_transaction c) (conn_now c) (conn_user c)
               (conn_location_seq c) (S (conn_statements c)) (conn_dynamic c).

Definition next_location_id (c : Connection) : Connection :=
  mkConnection (conn_db c) (conn_in_transaction c) (conn_now c) (conn_user c)
               (conn_location_seq c + 1) (conn_statements c) (conn_dynamic c).

Definition log_dynamic (c : Connection) (call : DynamicCall) : Connection :=
  mkConnection (conn_db c) (conn_in_transaction c) (conn_now c) (conn_user c)
               (conn_location_seq c) (conn_statements c) (conn_dynamic c ++ [call]).

(** ** Calls on a connection

    A method of [PostgisDbAPI] maps the connection to its outcome and the
    connection it leaves behind; a raised exception keeps whatever was
    executed before it. *)

Definition M (A : Type) : Type := Connection -> Result A * Connection.

Definition ret {A} (a : A) : M A := fun c => (Ok a, c).

Definition raise {A} (e : Exception) : M A := fun c => (Raise e, c).

Definition bind {A B} (m : M A) (k : A -> M B) : M B :=
  fun c => match m c with
           | (Ok a, c') => k a c'
           | (Raise e, c') => (Raise e, c')
           end.

Declare Scope api_scope.
Delimit Scope api_scope with api.
Notation "x <- m ;; k" := (bind m (fun x => k))
  (at level 100, m at next level, right associativity) : api_scope.
Notation "m ;;; k" := (bind m (fun _ => k))
  (at level 100, right associativity) : api_scope.

(** Lifting a partial computation that does not touch the connection. *)
Definition lift {A} (r : Result A) : M A := fun c => (r, c).

(** ** SQL statements on one table *)

Definition is_null {A} (v : option A) : bool :=
  match v with None => true | Some _ => false end.

Definition opt_eqb (v : option Z) (k : Z) : bool :=
  match v with Some x => x =? k | None => false end.

(** UPDATE ... WHERE: the rows after the statement. *)
Definition sql_update {R} (where_ : R -> bool) (values : R -> R) (rows : list R) : list R :=
  map (fun r => if where_ r then values r else r) rows.

(** DELETE ... WHERE: the rows after the statement. *)
Definition sql_delete {R} (where_ : R -> bool) (rows : list R) : list R :=
  filter (fun r => negb (where_ r)) rows.

(** [rowcount] of an UPDATE or DELETE: the rows its WHERE matched. *)
Definition sql_rowcount {R} (where_ : R -> bool) (rows : list R) : Z :=
  Z.of_nat (List.length (filter where_ rows)).

(** INSERT ... ON CONFLICT (target) DO NOTHING: the rows after the
    statement, where [conflict] tells the rows that share the target key. *)
Definition sql_insert_do_nothing {R} (conflict : R -> bool) (row : R) (rows : list R) : list R :=
  if existsb conflict rows then rows else rows ++ [row].

Definition sql_insert_rowcount {R} (conflict : R -> bool) (rows : list R) : Z :=
  if existsb conflict rows then 0 else 1.

(** A scalar subquery is NULL over an empty result. *)
Definition scalar_subquery {A} (rows : list A) : option A := hd_error rows.

(** ** Dataset rows *)


Definition set_ds_archived (a : option Time) (r : DatasetRow) : DatasetRow :=
  mkDataset (ds_id r) (ds_product_ref r) (ds_metadata_type_ref r) (ds_metadata_doc r)
            (ds_added r) (ds_added_by r) a.

Definition set_ds_metadata_type_ref (m : option Z) (r : DatasetRow) : DatasetRow :=
  mkDataset (ds_id r) (ds_product_ref r) m (ds_metadata_doc r)
            (ds_added r) (ds_added_by r) (ds_archived r).

(** Run a statement on the dataset table: [rowcount] of the result and the
    table it leaves. *)
Definition execute_on_datasets (rowcount : list DatasetRow -> Z)
           (effect : list DatasetRow -> list DatasetRow) : M Z :=
  fun c =>
    let rows := tbl_dataset (conn_db c) in
    (Ok (rowcount rows), executed (with_db c (with_datasets (conn_db c) (effect rows)))).

(** Modelled from the spec: the dataset table is declared in [_schema];
    the columns the INSERT does not set take its defaults ([added] is
    [now()], [added_by] the session user, [archived] NULL). *)
Definition insert_dataset (metadata_doc : Doc) (dataset_id : UUID) (product_id : Z) : M bool :=
  fun c =>
    let metadata_subquery :=
      scalar_subquery (map prod_metadata_type_ref
                           (filter (fun p => prod_id p =? product_id) (tbl_product (conn_db c)))) in
    let row := mkDataset dataset_id product_id metadata_subquery metadata_doc
                         (conn_now c) (conn_user c) None in
    let conflict := fun r => ds_id r =? dataset_id in
    (ret_ <- execute_on_datasets (sql_insert_rowcount conflict)
                                 (sql_insert_do_nothing conflict row) ;;
     ret (0 <? ret_))%api c.


(** [contains_dataset]: a SELECT, [fetchone] is None over an empty result. *)
Definition contains_dataset (dataset_id : UUID) : M bool :=
  fun c =>
    let rows := filter (fun r => ds_id r =? dataset_id) (tbl_dataset (conn_db c)) in
    (Ok (match hd_error (map ds_id rows) with Some _ => true | None => false end),
     executed c).

Definition archive_dataset (dataset_id : UUID) : M bool :=
  fun c =>
    let where_ := fun r => (ds_id r =? dataset_id) && is_null (ds_archived r) in
    (r <- execute_on_datasets (sql_rowcount where_)
                              (sql_update where_ (set_ds_archived (Some (conn_now c)))) ;;
     ret (0 <? r))%api c.

Definition restore_dataset (dataset_id : UUID) : M bool :=
  let where_ := fun r => ds_id r =? dataset_id in
  (r <- execute_on_datasets (sql_rowcount where_)
                            (sql_update where_ (set_ds_archived None)) ;;
   ret (0 <? r))%api.

(** ** Location rows *)

(** [str.find] of one character: the first index holding it, or -1. *)
Fixpoint find (ch : ascii) (s : string) : Z :=
  match s with
  | EmptyString => -1
  | String a rest =>
      if Ascii.eqb a ch then 0
      else let i := find ch rest in
           if i <? 0 then -1 else i + 1
  end.

(** The slices [s[:i]] and [s[i:]] for an index that is not negative. *)
Definition slice_to (s : string) (i : Z) : string :=
  substring 0 (Z.to_nat i) s.

Definition slice_from (s : string) (i : Z) : string :=
  substring (Z.to_nat i) (String.length s - Z.to_nat i) s.

Definition _split_uri (uri : string) : Result (string * string) :=
  let idx := find ":"%char uri in
  if idx <? 0 then Raise (ValueError "Not a URI")
  else Ok (slice_to uri idx, slice_from uri (idx + 1)).

Definition set_loc_archived (a : option Time) (r : LocationRow) : LocationRow :=
  mkLocation (loc_id r) (loc_dataset_ref r) (loc_uri_scheme r) (loc_uri_body r)
             (loc_added r) a.

(** The composite the location statements filter on. *)
Definition location_key (dataset_id : UUID) (scheme body : string) (r : LocationRow) : bool :=
  (loc_dataset_ref r =? dataset_id) && String.eqb (loc_uri_scheme r) scheme
  && String.eqb (loc_uri_body r) body.

Definition execute_on_locations (rowcount : list LocationRow -> Z)
           (effect : list LocationRow -> list LocationRow) : M Z :=
  fun c =>
    let rows := tbl_dataset_location (conn_db c) in
    (Ok (rowcount rows), executed (with_db c (with_locations (conn_db c) (effect rows)))).

(** Modelled from the spec: the location table is declared in [_schema];
    [id] is drawn from its serial, [added] defaults to [now()] and
    [archived] to NULL. *)
Definition insert_dataset_location (dataset_id : UUID) (uri : string) : M bool :=
  (sb <- lift (_split_uri uri) ;;
   let '(scheme, body) := sb in
   fun c =>
     let row := mkLocation (conn_location_seq c) dataset_id scheme body (conn_now c) None in
     let conflict := fun r =>
       String.eqb (loc_uri_scheme r) scheme && String.eqb (loc_uri_body r) body
       && (loc_dataset_ref r =? dataset_id) in
     (r <- execute_on_locations (sql_insert_rowcount conflict)
                                (sql_insert_do_nothing conflict row) ;;
      ret (0 <? r)) (next_location_id c))%api.

Definition remove_location (dataset_id : UUID) (uri : string) : M bool :=
  (sb <- lift (_split_uri uri) ;;
   let '(scheme, body) := sb in
   let where_ := location_key dataset_id scheme body in
   res <- execute_on_locations (sql_rowcount where_) (sql_delete where_) ;;
   ret (0 <? res))%api.

Definition archive_location (dataset_id : UUID) (uri : string) : M bool :=
  (sb <- lift (_split_uri uri) ;;
   let '(scheme, body) := sb in
   fun c =>
     let where_ := fun r => location_key dataset_id scheme body r && is_null (loc_archived r) in
     (res <- execute_on_locations (sql_rowcount where_)
                                  (sql_update where_ (set_loc_archived (Some (conn_now c)))) ;;
      ret (0 <? res)) c)%api.

Definition restore_location (dataset_id : UUID) (uri : string) : M bool :=
  (sb <- lift (_split_uri uri) ;;
   let '(scheme, body) := sb in
   let where_ := fun r => location_key dataset_id scheme body r && negb (is_null (loc_archived r)) in
   res <- execute_on_locations (sql_rowcount where_)
                               (sql_update where_ (set_loc_archived None)) ;;
   ret (0 <? res))%api.

(** ** Join resolution *)

Definition sort_order_hack : list Relation :=
  [DatasetLocation; Dataset; Product; MetadataType].

(** A Python set of relations, as the list of its members: [update] and
    [discard], and the membership test. *)
Definition set_update (s : list Relation) (items : list Relation) : list Relation :=
  fold_left (fun acc t => if existsb (Relation_eqb t) acc then acc else acc ++ [t]) items s.

Definition set_discard (s : list Relation) (t : Relation) : list Relation :=
  filter (fun x => negb (Relation_eqb x t)) s.

Definition set_in (t : Relation) (s : list Relation) : bool :=
  existsb (Relation_eqb t) s.

(** [expressions] and [fields] default to None; None and the empty
    sequence are both false in a condition. *)
Definition truthy {A} (o : option (list A)) : bool :=
  match o with
  | Some (_ :: _) => true
  | _ => false
  end.

Definition items {A} (o : option (list A)) : list A :=
  match o with Some l => l | None => [] end.

Definition _join_tables (source_table : Relation) (expressions : option (list Expression))
           (fields : option (list PgField)) : list Relation :=
  let join_tables := [] in
  let join_tables :=
    if truthy expressions
    then set_update join_tables
                    (map (fun expression => required_alchemy_table (field expression))
                         (items expressions))
    else join_tables in
  let join_tables :=
    if truthy fields
    then set_update join_tables (map required_alchemy_table (items fields))
    else join_tables in
  let join_tables := set_discard join_tables source_table in
  filter (fun orm_table => set_in orm_table join_tables) sort_order_hack.

(** ** SELECT statements

    A row of a FROM clause holds a dataset row and, for each other
    relation the statement draws from, one of its rows.  Every SELECT the
    module builds over these relations names [Dataset], in its archived
    test at the least. *)
Record JoinedRow : Type := mkJoined {
  jr_dataset : DatasetRow;
  jr_location : option LocationRow;
  jr_source : option SourceRow;
  jr_product : option ProductRow;
  jr_metadata_type : option MetadataTypeRow
}.

Definition on_row {R} (f : R -> Value) (r : option R) : Value :=
  match r with Some x => f x | None => VNull end.

Definition eval_column (col : ColumnExpr) (jr : JoinedRow) : Value :=
  match col with
  | DatasetColumn f => f (jr_dataset jr)
  | LocationColumn f => on_row f (jr_location jr)
  | SourceColumn f => on_row f (jr_source jr)
  | ProductColumn f => on_row f (jr_product jr)
  | MetadataTypeColumn f => on_row f (jr_metadata_type jr)
  end.

Fixpoint holds (cl : Clause) (jr : JoinedRow) : bool :=
  match cl with
  | Test col p => p (eval_column col jr)
  | or_ cs => existsb (fun c => holds c jr) cs
  | and_ cs => forallb (fun c => holds c jr) cs
  end.

Inductive Columns : Type :=
| dataset_select_fields
| labelled (fs : list PgField)
| func_count (arg : option ColumnExpr).

(** A statement as the generative calls leave it: the columns, the
    relations given to [select_from], those given to [join] in order, the
    clauses given to [where] (conjoined) and the limit. *)
Record Select : Type := mkSelect {
  sel_columns : Columns;
  sel_from : list Relation;
  sel_joins : list Relation;
  sel_where : list Clause;
  sel_limit : option nat
}.

Definition select (cols : Columns) : Select := mkSelect cols [] [] [] None.

Definition select_from (q : Select) (t : Relation) : Select :=
  mkSelect (sel_columns q) (sel_from q ++ [t]) (sel_joins q) (sel_where q) (sel_limit q).

Definition join (q : Select) (t : Relation) : Select :=
  mkSelect (sel_columns q) (sel_from q) (sel_joins q ++ [t]) (sel_where q) (sel_limit q).

Definition where_ (q : Select) (clauses : list Clause) : Select :=
  mkSelect (sel_columns q) (sel_from q) (sel_joins q) (sel_where q ++ clauses) (sel_limit q).

Definition limit (q : Select) (n : option nat) : Select :=
  mkSelect (sel_columns q) (sel_from q) (sel_joins q) (sel_where q) n.

Definition columns_tables (cols : Columns) : list Relation :=
  match cols with
  | dataset_select_fields => [Dataset]
  | labelled fs => map (fun f => column_table (alchemy_expression f)) fs
  | func_count (Some col) => [column_table col]
  | func_count None => []
  end.

(** The relations a statement draws from without joining them: those given
    to [select_from] and those its columns and clauses name. *)
Definition select_tables (q : Select) : list Relation :=
  sel_from q ++ columns_tables (sel_columns q) ++ flat_map clause_tables (sel_where q).

(** The rows one relation adds to a FROM clause: the rows the join
    condition pairs with the dataset when the relation is joined, every row
    when it is only named (the statement then ranges over a cross
    product), and none otherwise. *)
Definition from_part {R} (joined named : bool) (on_ : R -> bool) (rows : list R)
  : list (option R) :=
  if joined then map Some (filter on_ rows)
  else if named then map Some rows
  else [None].

(** Modelled from the spec: the references between the relations are
    declared in [_schema]; a joined relation is paired with the dataset
    through the reference between the two (a location or lineage edge by
    its [dataset_ref], the product by the dataset's [product_ref], the
    metadata type by the dataset's [metadata_type_ref]). *)
Definition from_rows (db : Database) (q : Select) : list JoinedRow :=
  let joined := fun t => set_in t (sel_joins q) in
  let named := fun t => set_in t (select_tables q) in
  flat_map (fun d =>
    flat_map (fun l =>
      flat_map (fun s =>
        flat_map (fun p =>
          map (fun m => mkJoined d l s p m)
              (from_part (joined MetadataType) (named MetadataType)
                         (fun m => opt_eqb (ds_metadata_type_ref d) (mt_id m))
                         (tbl_metadata_type db)))
          (from_part (joined Product) (named Product)
                     (fun p => prod_id p =? ds_product_ref d)
                     (tbl_product db)))
        (from_part (joined DatasetSource) (named DatasetSource)
                   (fun s => src_dataset_ref s =? ds_id d)
                   (tbl_dataset_source db)))
      (from_part (joined DatasetLocation) (named DatasetLocation)
                 (fun l => loc_dataset_ref l =? ds_id d)
                 (tbl_dataset_location db)))
    (tbl_dataset db).

Definition selected_rows (db : Database) (q : Select) : list JoinedRow :=
  filter (fun jr => forallb (fun cl => holds cl jr) (sel_where q)) (from_rows db q).

Definition take {A} (n : option nat) (l : list A) : list A :=
  match n with Some k => firstn k l | None => l end.

(** Modelled from the spec: the [uri] column of a location row, declared
    in [_schema], is the scheme and the body around the [:] the URI was
    split at. *)
Definition uri (r : LocationRow) : string :=
  String.append (loc_uri_scheme r) (String ":"%char (loc_uri_body r)).

(** ORDER BY added DESC, id DESC. *)
Definition newer (a b : LocationRow) : bool :=
  (loc_added b <? loc_added a) || ((loc_added a =? loc_added b) && (loc_id b <? loc_id a)).

Fixpoint insert_newest (r : LocationRow) (l : list LocationRow) : list LocationRow :=
  match l with
  | [] => [r]
  | x :: t => if newer r x then r :: x :: t else x :: insert_newest r t
  end.

Definition order_by_newest (l : list LocationRow) : list LocationRow :=
  fold_right insert_newest [] l.

(** The [uris] column of [_dataset_select_fields]: all active URIs of the
    dataset, from newest to oldest. *)
Definition active_uris (db : Database) (d : DatasetRow) : list string :=
  map uri (order_by_newest
             (filter (fun l => (loc_dataset_ref l =? ds_id d) && is_null (loc_archived l))
                     (tbl_dataset_location db))).

Inductive ResultRow : Type :=
| DatasetRecord (d : DatasetRow) (uris : list string)
| Labelled (cols : list (string * Value))
| Scalar (n : Z).

Definition is_value (v : Value) : bool :=
  match v with VNull => false | _ => true end.

Definition fetch (db : Database) (q : Select) : list ResultRow :=
  let rows := selected_rows db q in
  take (sel_limit q)
       match sel_columns q with
       | dataset_select_fields =>
           map (fun jr => DatasetRecord (jr_dataset jr) (active_uris db (jr_dataset jr))) rows
       | labelled fs =>
           map (fun jr => Labelled (map (fun f => (field_name f,
                                                   eval_column (alchemy_expression f) jr)) fs))
               rows
       | func_count (Some col) =>
           [Scalar (Z.of_nat (List.length (filter (fun jr => is_value (eval_column col jr)) rows)))]
       | func_count None =>
           [Scalar (Z.of_nat (List.length rows))]
       end.

(** [self._connection.execute] of a SELECT. *)
Definition execute_select (q : Select) : M (list ResultRow) :=
  fun c => (Ok (fetch (conn_db c) q), executed c).

(** [self._connection.scalar]: the first column of the first row. *)
Definition scalar (q : Select) : M (option Z) :=
  fun c => (Ok match fetch (conn_db c) q with
               | Scalar n :: _ => Some n
               | _ => None
               end, executed c).

(** ** Search and count *)

Definition archived_column : ColumnExpr :=
  DatasetColumn (fun r => match ds_archived r with Some t => VTime t | None => VNull end).

Definition id_column : ColumnExpr := DatasetColumn (fun r => VInt (ds_id r)).

(** [Dataset.archived == None] *)
Definition archived_is_null : Clause := Test archived_column (fun v => negb (is_value v)).

Fixpoint raw_expr (expression : Expression) : Clause :=
  match expression with
  | OrExpression _ exprs => or_ (map raw_expr exprs)
  | PgExpression _ alchemy_expr => alchemy_expr
  end.

Definition _alchemify_expressions (expressions : list Expression) : list Clause :=
  map raw_expr expressions.

Definition search_datasets_query (expressions : list Expression)
           (source_exprs : option (list Expression))
           (select_fields : option (list PgField))
           (with_source_ids : bool) (limit_ : option nat) : Result Select :=
  if negb (is_null source_exprs) then Raise AssertionError
  else if with_source_ids then Raise AssertionError
  else
    let select_columns :=
      if truthy select_fields then labelled (items select_fields)
      else dataset_select_fields in
    let raw_expressions := _alchemify_expressions expressions in
    let join_tables := _join_tables Dataset (Some expressions) select_fields in
    let where_expr := and_ (archived_is_null :: raw_expressions) in
    let query := select_from (select select_columns) Dataset in
    let query := fold_left join join_tables query in
    Ok (limit (where_ query [where_expr]) limit_).

Definition search_datasets (expressions : list Expression)
           (source_exprs : option (list Expression))
           (select_fields : option (list PgField))
           (with_source_ids : bool) (limit_ : option nat) : M (list ResultRow) :=
  (select_query <- lift (search_datasets_query expressions source_exprs select_fields
                                               with_source_ids limit_) ;;
   execute_select select_query)%api.

Definition search_unique_datasets_query (expressions : list Expression)
           (select_fields : option (list PgField)) (limit_ : option nat) : Result Select :=
  Raise NotImplementedError.

Definition search_unique_datasets (expressions : list Expression)
           (select_fields : option (list PgField)) (limit_ : option nat)
  : M (list ResultRow) :=
  (select_query <- lift (search_unique_datasets_query expressions select_fields limit_) ;;
   execute_select select_query)%api.

Definition count_datasets (expressions : list Expression) : M (option Z) :=
  let raw_expressions := _alchemify_expressions expressions in
  let select_query :=
    where_ (where_ (select (func_count (Some id_column))) [archived_is_null])
           raw_expressions in
  scalar select_query.

(** ** Counting through time *)

(** [generate_series(start, stop, step)] of the backend: every
    [start + i * step] up to [stop], downwards for a negative step. *)
Definition generate_series (start stop step : Z) : Result (list Z) :=
  if step =? 0 then Raise (DatabaseError "step size cannot equal zero")
  else if 0 <? step then
    Ok (if stop <? start then []
        else map (fun i => start + Z.of_nat i * step)
                 (seq 0 (S (Z.to_nat ((stop - start) / step)))))
  else
    Ok (if start <? stop then []
        else map (fun i => start + Z.of_nat i * step)
                 (seq 0 (S (Z.to_nat ((start - stop) / (- step)))))).

(** [lead(x) OVER ()]: each row with the value of the next, NULL on the last. *)
Fixpoint lead {A} (rows : list A) : list (A * option A) :=
  match rows with
  | [] => []
  | x :: rest => (x, hd_error rest) :: lead rest
  end.

(** [tstzrange(lo, hi)]: closed below, open above, unbounded above for a
    NULL [hi]; the backend refuses bounds in the wrong order. *)
Definition tstzrange (lo : Time) (hi : option Time) : Result TimeRange :=
  match hi with
  | Some h =>
      if h <? lo
      then Raise (DatabaseError "range lower bound must be less than or equal to range upper bound")
      else Ok (mkTimeRange (Some lo) hi true false)
  | None => Ok (mkTimeRange (Some lo) None true false)
  end.

Definition upper_inf (r : TimeRange) : bool := is_null (upper r).

Fixpoint sequence {A} (rs : list (Result A)) : Result (list A) :=
  match rs with
  | [] => Ok []
  | Ok a :: rest =>
      match sequence rest with
      | Ok l => Ok (a :: l)
      | Raise e => Raise e
      end
  | Raise e :: _ => Raise e
  end.

Definition range_is_empty (r : TimeRange) : bool :=
  match lower r, upper r with
  | Some l, Some u => (u <? l) || ((l =? u) && negb (lower_inc r && upper_inc r))
  | _, _ => false
  end.

(** The lower bound of [a] lies before the upper bound of [b]. *)
Definition begins_before_end (a b : TimeRange) : bool :=
  match lower a, upper b with
  | Some l, Some u => (l <? u) || ((l =? u) && lower_inc a && upper_inc b)
  | _, _ => true
  end.

(** The range operator [&&]. *)
Definition range_overlaps (a b : TimeRange) : bool :=
  negb (range_is_empty a) && negb (range_is_empty b)
  && begins_before_end a b && begins_before_end b a.

(** [column.overlaps(time_period)] *)
Definition overlaps (col : ColumnExpr) (time_period : TimeRange) : Clause :=
  Test col (fun v => match v with
                     | VRange r => range_overlaps r time_period
                     | _ => false
                     end).

(** The statement of [count_datasets_through_time_query]: the rows of
    [time_ranges] and, correlated with each of them, the count. *)
Record ThroughTimeQuery : Type := mkThroughTime {
  time_ranges : Result (list TimeRange);
  count_query : TimeRange -> Select
}.

Definition count_datasets_through_time_query (start end_ period : Z) (time_field : PgField)
           (expressions : list Expression) : ThroughTimeQuery :=
  let raw_expressions := _alchemify_expressions expressions in
  let start_times := generate_series start end_ period in
  let time_range_select :=
    match start_times with
    | Ok times => sequence (map (fun row => tstzrange (fst row) (snd row)) (lead times))
    | Raise e => Raise e
    end in
  let time_ranges :=
    match time_range_select with
    | Ok ranges => Ok (filter (fun time_period => negb (upper_inf time_period)) ranges)
    | Raise e => Raise e
    end in
  let join_tables := _join_tables Dataset (Some expressions) None in
  let count_query := fun time_period =>
    let count_query := select (func_count None) in
    let count_query := fold_left join join_tables count_query in
    where_ count_query
           [and_ (overlaps (alchemy_expression time_field) time_period
                  :: archived_is_null :: raw_expressions)] in
  mkThroughTime time_ranges count_query.

Definition execute_through_time (q : ThroughTimeQuery) : M (list (TimeRange * Z)) :=
  fun c =>
    match time_ranges q with
    | Ok ranges =>
        (Ok (map (fun time_period =>
                    (time_period,
                     Z.of_nat (List.length (selected_rows (conn_db c) (count_query q time_period)))))
                 ranges),
         executed c)
    | Raise e => (Raise e, executed c)
    end.

(** [datacube.model.Range] *)
Record Range : Type := mkRange {
  begin : option Time;
  end_of : option Time
}.

Definition count_datasets_through_time (start end_ period : Z) (time_field : PgField)
           (expressions : list Expression) : M (list (Range * Z)) :=
  (results <- execute_through_time
                (count_datasets_through_time_query start end_ period time_field expressions) ;;
   ret (map (fun row => (mkRange (lower (fst row)) (upper (fst row)), snd row)) results))%api.

(** ** Dynamic fields *)

(** The exceptions [_get_active_field_names] absorbs. *)
Definition absorbed (e : Exception) : bool :=
  match e with
  | AttributeError | KeyError | ValueError _ => true
  | _ => false
  end.

(** [fields] is a dict, here the list of its items in insertion order;
    [fields.values()] is read in that order.  The generator is consumed
    whole by [tuple]. *)
Definition values {K V} (d : list (K * V)) : list V := map snd d.

Fixpoint active_names_of (field_values : list PgField) (metadata_doc : Doc)
  : Result (list string) :=
  match field_values with
  | [] => Ok []
  | field :: rest =>
      match extract field with
      | Some extract_ =>
          match extract_ metadata_doc with
          | Ok (Some _) =>
              match active_names_of rest metadata_doc with
              | Ok names => Ok (field_name field :: names)
              | Raise e => Raise e
              end
          | Ok None => active_names_of rest metadata_doc
          | Raise e =>
              if absorbed e then active_names_of rest metadata_doc
              else Raise e
          end
      | None => active_names_of rest metadata_doc
      end
  end.

Definition _get_active_field_names (fields : list (string * PgField)) (metadata_doc : Doc)
  : Result (list string) :=
  active_names_of (values fields) metadata_doc.

(** Modelled from the spec: [dynamic.check_dynamic_fields] is the external
    index/view builder; it is handed the arguments and keeps them. *)
Definition check_dynamic_fields (concurrently : bool) (dataset_filter : Clause)
           (excluded_field_names : list string) (fields : list (string * PgField))
           (name : string) (rebuild_indexes rebuild_view : bool) : M unit :=
  fun c => (Ok tt, log_dynamic c (mkDynamicCall concurrently dataset_filter excluded_field_names
                                                 (map fst fields) name
                                                 rebuild_indexes rebuild_view)).

Definition product_ref_column : ColumnExpr := DatasetColumn (fun r => VInt (ds_product_ref r)).

Definition _setup_product_fields (id_ : Z) (name : string) (fields : list (string * PgField))
           (metadata_doc : Doc) (rebuild_indexes rebuild_view concurrently : bool) : M unit :=
  let dataset_filter :=
    and_ [archived_is_null;
          Test product_ref_column (fun v => match v with VInt n => n =? id_ | _ => false end)] in
  (excluded_field_names <- lift (_get_active_field_names fields metadata_doc) ;;
   check_dynamic_fields concurrently dataset_filter excluded_field_names fields name
                        rebuild_indexes rebuild_view)%api.

(** ** Products *)

(** Subscripting a document with a key. *)
Definition getitem (d : Doc) (key : string) : Result Doc :=
  match d with
  | DDict kvs =>
      match List.find (fun kv => String.eqb (fst kv) key) kvs with
      | Some kv => Ok (snd kv)
      | None => Raise KeyError
      end
  | _ => Raise TypeError
  end.

Definition set_product (metadata : Doc) (metadata_type_id : Z) (definition : Doc)
           (r : ProductRow) : ProductRow :=
  mkProduct (prod_id r) (prod_name r) metadata_type_id metadata definition.

(** UPDATE product ... RETURNING id: the ids of the rows updated. *)
Definition execute_update_product (name : string) (metadata : Doc) (metadata_type_id : Z)
           (definition : Doc) : M (list Z) :=
  fun c =>
    let where_name := fun p => String.eqb (prod_name p) name in
    let rows := tbl_product (conn_db c) in
    (Ok (map prod_id (filter where_name rows)),
     executed (with_db c (with_products (conn_db c)
                            (sql_update where_name
                                        (set_product metadata metadata_type_id definition)
                                        rows)))).

(** [res.first()[0]]: [first] is None over an empty result. *)
Definition first_0 (res : list Z) : Result Z :=
  match res with
  | x :: _ => Ok x
  | [] => Raise TypeError
  end.

Definition update_product (name : string) (metadata : Doc) (metadata_type_id : Z)
           (search_fields : list (string * PgField)) (definition : Doc)
           (update_metadata_type concurrently : bool) : M Z :=
  (res <- execute_update_product name metadata metadata_type_id definition ;;
   prod_id_ <- lift (first_0 res) ;;
   (if update_metadata_type then
      fun c =>
        if negb (conn_in_transaction c)
        then (Raise (RuntimeError "Must update metadata types in transaction"), c)
        else
          let where_product := fun r => ds_product_ref r =? prod_id_ in
          (_ <- execute_on_datasets
                  (sql_rowcount where_product)
                  (sql_update where_product (set_ds_metadata_type_ref (Some metadata_type_id))) ;;
           ret tt) c
    else ret tt) ;;;
   metadata_doc <- lift (getitem definition "metadata") ;;
   _setup_product_fields prod_id_ name search_fields metadata_doc false true concurrently ;;;
   ret prod_id_)%api.

(** ** Reading the outcome of a call *)

Definition result_of {A} (m : M A) (c : Connection) : Result A := fst (m c).

Definition after {A} (m : M A) (c : Connection) : Connection := snd (m c).

Definition datasets (c : Connection) : list DatasetRow := tbl_dataset (conn_db c).

Definition locations (c : Connection) : list LocationRow := tbl_dataset_location (conn_db c).

Definition products (c : Connection) : list ProductRow := tbl_product (conn_db c).

(** ** A small catalogue used in the examples *)

Definition example_products : list ProductRow :=
  [mkProduct 1 "ls8_nbar" 1 (DDict []) (DDict [("metadata", DDict [("format", DStr "GeoTIFF")])]);
   mkProduct 2 "ls7_nbar" 1 (DDict []) (DDict [("metadata", DDict [("format", DStr "NetCDF")])])].

Definition example_datasets : list DatasetRow :=
  [mkDataset 101 1 (Some 1) (DDict [("format", DStr "GeoTIFF")]) 10 "odc" None;
   mkDataset 102 2 (Some 1) (DDict [("format", DStr "NetCDF")]) 11 "odc" None].

Definition example_locations : list LocationRow :=
  [mkLocation 1 101 "file" "///data/a.tif" 10 None].

Definition example_db : Database :=
  mkDatabase example_datasets example_locations []
             example_products [mkMetadataType 1 "eo" (DDict [])].

Definition example_conn : Connection :=
  mkConnection example_db false 1000 "odc" 2 0 [].


(** ** Fields used in the examples *)

Definition doc_string (doc : Doc) (key : string) : Result (option Value) :=
  match getitem doc key with
  | Ok (DStr s) => Ok (Some (VStr s))
  | Ok _ => Ok None
  | Raise e => Raise e
  end.

Definition doc_column (key : string) : ColumnExpr :=
  DatasetColumn (fun r => match doc_string (ds_metadata_doc r) key with
                          | Ok (Some v) => v
                          | _ => VNull
                          end).

Definition format_field : PgField :=
  mkField "format" Dataset (doc_column "format") (Some (fun doc => doc_string doc "format")).

Definition label_field : PgField :=
  mkField "label" Dataset (doc_column "label") (Some (fun doc => doc_string doc "label")).

Definition product_field : PgField :=
  mkField "product" Product (ProductColumn (fun p => VStr (prod_name p))) None.

Definition uri_field : PgField :=
  mkField "uri" DatasetLocation (LocationColumn (fun l => VStr (uri l))) None.

Definition example_fields : list (string * PgField) :=
  [("product", product_field); ("format", format_field); ("label", label_field)].

(** [field == value] on a string-valued field. *)
Definition equals (f : PgField) (value : string) : Expression :=
  PgExpression f (Test (alchemy_expression f)
                       (fun v => match v with VStr s => String.eqb s value | _ => false end)).




(** ** Buckets and direct counts *)




(** A direct count: the number of rows [search_datasets] returns for the
    expressions, with no select fields and no limit. *)
Definition direct_count (c : Connection) (expressions : list Expression) : Result Z :=
  match result_of (search_datasets expressions None None false None) c with
  | Ok rows => Ok (Z.of_nat (List.length rows))
  | Raise e => Raise e
  end.

(** A time-valued field: the instant a dataset was added, as a range. *)
Definition added_field : PgField :=
  mkField "added"
          Dataset
          (DatasetColumn (fun r => VRange (mkTimeRange (Some (ds_added r)) (Some (ds_added r))
                                                       true true)))
          None.

(** ** The rest of the dataset and location API *)

Definition sources (c : Connection) : list SourceRow := tbl_dataset_source (conn_db c).

Definition with_sources (d : Database) (rows : list SourceRow) : Database :=
  mkDatabase (tbl_dataset d) (tbl_dataset_location d) rows (tbl_product d) (tbl_metadata_type d).

Definition execute_on_sources (rowcount : list SourceRow -> Z)
           (effect : list SourceRow -> list SourceRow) : M Z :=
  fun c =>
    let rows := tbl_dataset_source (conn_db c) in
    (Ok (rowcount rows), executed (with_db c (with_sources (conn_db c) (effect rows)))).

(** [column.in_(values)] on ids. *)
Definition in_ (values_ : list UUID) (x : UUID) : bool := existsb (Z.eqb x) values_.

Definition datasets_intersection (dataset_ids : list UUID) : M (list UUID) :=
  fun c =>
    (Ok (map ds_id (filter (fun r => in_ dataset_ids (ds_id r)) (tbl_dataset (conn_db c)))),
     executed c).

Definition all_dataset_ids (archived : bool) : M (list UUID) :=
  fun c =>
    let query :=
      if archived then fun r => negb (is_null (ds_archived r))
      else fun r => is_null (ds_archived r) in
    (Ok (map ds_id (filter query (tbl_dataset (conn_db c)))), executed c).


Definition delete_dataset (dataset_id : UUID) : M bool :=
  let of_location := fun l => loc_dataset_ref l =? dataset_id in
  let of_source := fun s => src_dataset_ref s =? dataset_id in
  let of_dataset := fun r => ds_id r =? dataset_id in
  (execute_on_locations (sql_rowcount of_location) (sql_delete of_location) ;;;
   execute_on_sources (sql_rowcount of_source) (sql_delete of_source) ;;;
   r <- execute_on_datasets (sql_rowcount of_dataset) (sql_delete of_dataset) ;;
   ret (0 <? r))%api.

(** [Dataset.id == dataset_id] *)
Definition id_is (dataset_id : UUID) : Clause :=
  Test id_column (fun v => match v with VInt n => n =? dataset_id | _ => false end).

(** [get_dataset]: [first] is None over an empty result. *)
Definition get_dataset (dataset_id : UUID) : M (option ResultRow) :=
  fun c =>
    (Ok (hd_error (fetch (conn_db c) (where_ (select dataset_select_fields) [id_is dataset_id]))),
     executed c).

Definition get_datasets (dataset_ids : list UUID) : M (list ResultRow) :=
  execute_select
    (where_ (select dataset_select_fields)
            [Test id_column (fun v => match v with VInt n => in_ dataset_ids n | _ => false end)]).

Definition get_derived_datasets (dataset_id : UUID) : M (list ResultRow) :=
  raise NotImplementedError.

Definition get_dataset_sources (dataset_id : UUID) : M (list ResultRow) :=
  raise NotImplementedError.

Definition get_locations (dataset_id : UUID) : M (list string) :=
  fun c =>
    (Ok (map uri
             (order_by_newest
                (filter (fun l => (loc_dataset_ref l =? dataset_id) && is_null (loc_archived l))
                        (tbl_dataset_location (conn_db c))))),
     executed c).

(** ORDER BY added DESC. *)
Fixpoint insert_by_added (r : LocationRow) (l : list LocationRow) : list LocationRow :=
  match l with
  | [] => [r]
  | x :: t => if loc_added x <? loc_added r then r :: x :: t else x :: insert_by_added r t
  end.

Definition order_by_added (l : list LocationRow) : list LocationRow :=
  fold_right insert_by_added [] l.

Definition get_archived_locations (dataset_id : UUID) : M (list (string * option Time)) :=
  fun c =>
    (Ok (map (fun l => (uri l, loc_archived l))
             (order_by_added
                (filter (fun l => (loc_dataset_ref l =? dataset_id)
                                  && negb (is_null (loc_archived l)))
                        (tbl_dataset_location (conn_db c))))),
     executed c).

(** [str.count] of one character. *)
Fixpoint count (ch : ascii) (s : string) : Z :=
  match s with
  | EmptyString => 0
  | String a rest => (if Ascii.eqb a ch then 1 else 0) + count ch rest
  end.

(** The backend's [LIKE]: [%] matches any run of characters, [_] any one
    character, and a backslash takes the next character of the pattern
    literally. *)
Fixpoint like (pattern s : list ascii) : bool :=
  match pattern with
  | [] => match s with [] => true | _ :: _ => false end
  | p :: rest =>
      if Ascii.eqb p "%" then
        (fix any_run (s : list ascii) : bool :=
           like rest s || match s with [] => false | _ :: s' => any_run s' end) s
      else if Ascii.eqb p "_" then
        match s with [] => false | _ :: s' => like rest s' end
      else if Ascii.eqb p "\" then
        match rest, s with
        | q :: rest', ch :: s' => Ascii.eqb q ch && like rest' s'
        | _, _ => false
        end
      else
        match s with
        | ch :: s' => Ascii.eqb p ch && like rest s'
        | [] => false
        end
  end.

(** [column.startswith(other)] renders as [column LIKE other || '%']. *)
Definition startswith (column other : string) : bool :=
  like (list_ascii_of_string other ++ ["%"%char]) (list_ascii_of_string column).

Definition get_datasets_for_location (uri_ : string) (mode : option string)
  : M (list ResultRow) :=
  (sb <- lift (_split_uri uri_) ;;
   let '(scheme, body) := sb in
   let mode := match mode with
               | None => if 0 <? count "#" body then "exact" else "prefix"
               | Some m => m
               end in
   body_query <-
     lift (if String.eqb mode "exact" then
             Ok (Test (LocationColumn (fun l => VStr (loc_uri_body l)))
                      (fun v => match v with VStr b => String.eqb b body | _ => false end))
           else if String.eqb mode "prefix" then
             Ok (Test (LocationColumn (fun l => VStr (loc_uri_body l)))
                      (fun v => match v with VStr b => startswith b body | _ => false end))
           else Raise (ValueError (String.append "Unsupported query mode " mode))) ;;
   execute_select
     (where_ (join (select dataset_select_fields) DatasetLocation)
             [and_ [Test (LocationColumn (fun l => VStr (loc_uri_scheme l)))
                         (fun v => match v with VStr x => String.eqb x scheme | _ => false end);
                    body_query]]))%api.

(** ** Products and metadata types *)

Definition get_product (id_ : Z) : M (option ProductRow) :=
  fun c => (Ok (hd_error (filter (fun p => prod_id p =? id_) (tbl_product (conn_db c)))),
            executed c).


Definition get_metadata_type (id_ : Z) : M (option MetadataTypeRow) :=
  fun c => (Ok (hd_error (filter (fun m => mt_id m =? id_) (tbl_metadata_type (conn_db c)))),
            executed c).

Definition get_metadata_type_by_name (name : string) : M (option MetadataTypeRow) :=
  fun c => (Ok (hd_error (filter (fun m => String.eqb (mt_name m) name)
                                 (tbl_metadata_type (conn_db c)))),
            executed c).

(** ORDER BY name ASC, in the order of the character codes. *)
Fixpoint insert_by_name (r : ProductRow) (l : list ProductRow) : list ProductRow :=
  match l with
  | [] => [r]
  | x :: t => if String.leb (prod_name r) (prod_name x) then r :: x :: t
              else x :: insert_by_name r t
  end.

Definition order_by_name (l : list ProductRow) : list ProductRow :=
  fold_right insert_by_name [] l.

Definition get_all_products : M (list ProductRow) :=
  fun c => (Ok (order_by_name (tbl_product (conn_db c))), executed c).

Definition _get_products_for_metadata_type (id_ : Z) : M (list ProductRow) :=
  fun c =>
    (Ok (order_by_name (filter (fun p => prod_metadata_type_ref p =? id_)
                               (tbl_product (conn_db c)))),
     executed c).

(** A [for] loop whose body may raise. *)
Fixpoint for_each {A} (l : list A) (body : A -> M unit) : M unit :=
  match l with
  | [] => ret tt
  | x :: rest => (body x ;;; for_each rest body)%api
  end.

Definition _setup_metadata_type_fields (id_ : Z) (name : string)
           (fields : list (string * PgField))
           (rebuild_indexes rebuild_views concurrently : bool) : M unit :=
  (products_ <- _get_products_for_metadata_type id_ ;;
   for_each products_
            (fun product =>
               metadata_doc <- lift (getitem (prod_definition product) "metadata") ;;
               _setup_product_fields (prod_id product) (prod_name product) fields metadata_doc
                                     rebuild_indexes rebuild_views concurrently))%api.

(** [a] may come before [b] under ORDER BY added DESC, id DESC. *)
Definition newest_first (a b : LocationRow) : Prop :=
  loc_added b < loc_added a \/ (loc_added b = loc_added a /\ loc_id b <= loc_id a).

(** No stored scheme holds a [:]. *)
Definition clean_schemes (c : Connection) : Prop :=
  forall l, In l (locations c) -> ~ In ":"%char (list_ascii_of_string (loc_uri_scheme l)).

(** The URI made of a scheme and a body. *)
Definition make_uri (scheme body : string) : string :=
  String.append scheme (String ":"%char body).

(** A string with none of the characters [LIKE] reads as a wildcard or
    an escape. *)
Definition plain (s : string) : Prop :=
  forall ch, In ch (list_ascii_of_string s) ->
             ch <> "%"%char /\ ch <> "_"%char /\ ch <> "\"%char.

(** The records [get_datasets_for_location] returns for a test on the
    location rows: one per dataset and matching location of it. *)
Definition records_by_location (db : Database) (test : LocationRow -> bool) : list ResultRow :=
  flat_map (fun d => map (fun _ => DatasetRecord d (active_uris db d))
                         (filter (fun l => (loc_dataset_ref l =? ds_id d) && test l)
                                 (tbl_dataset_location db)))
           (tbl_dataset db).

(** What the index/view builder is handed for one product of a
    metadata type. *)
Definition handed_for (fields : list (string * PgField))
           (rebuild_indexes rebuild_views concurrently : bool)
           (product : ProductRow) (call : DynamicCall) : Prop :=
  dc_name call = prod_name product
  /\ dc_rebuild_indexes call = rebuild_indexes
  /\ dc_rebuild_view call = rebuild_views
  /\ dc_concurrently call = concurrently
  /\ exists metadata_doc,
      getitem (prod_definition product) "metadata" = Ok metadata_doc
      /\ _get_active_field_names fields metadata_doc = Ok (dc_excluded_field_names call).

(** * Properties *)

Section SqlLemmas.
Context {R : Type}.
Variable p : R -> bool.

Lemma rowcount_positive (rows : list R) :
  (0 <? sql_rowcount p rows) = existsb p rows.
Proof.
  unfold sql_rowcount.
  induction rows as [|r rows IH]; simpl; [reflexivity|].
  destruct (p r); simpl.
  - apply Z.ltb_lt. lia.
  - exact IH.
Qed.

Lemma insert_rowcount_positive (rows : list R) :
  (0 <? sql_insert_rowcount p rows) = negb (existsb p rows).
Proof. unfold sql_insert_rowcount. destruct (existsb p rows); reflexivity. Qed.

Lemma update_none_left (f : R -> R) (rows : list R) :
  (forall r, p r = true -> p (f r) = false) ->
  existsb p (sql_update p f rows) = false.
Proof.
  intros Hf. unfold sql_update.
  induction rows as [|r rows IH]; simpl; [reflexivity|].
  rewrite IH, orb_false_r.
  destruct (p r) eqn:E; [apply Hf; exact E | exact E].
Qed.

Lemma update_untouched (f : R -> R) (rows : list R) :
  existsb p rows = false -> sql_update p f rows = rows.
Proof.
  unfold sql_update.
  induction rows as [|r rows IH]; simpl; [reflexivity|].
  intros H. apply orb_false_iff in H. destruct H as [Hr Hrest].
  rewrite Hr, IH by exact Hrest. reflexivity.
Qed.


End SqlLemmas.

Lemma existsb_In {R} (p : R -> bool) (r : R) (rows : list R) :
  In r rows -> p r = true -> existsb p rows = true.
Proof. intros Hin Hp. apply existsb_exists. exists r. split; assumption. Qed.

Lemma existsb_update_same {R} (p q : R -> bool) (f : R -> R) (rows : list R) :
  (forall r, p (f r) = p r) ->
  existsb p (sql_update q f rows) = existsb p rows.
Proof.
  intros Hf. unfold sql_update.
  induction rows as [|r rows IH]; simpl; [reflexivity|].
  rewrite IH. destruct (q r); [rewrite Hf|]; reflexivity.
Qed.

Lemma fetchone_present {R A} (p : R -> bool) (f : R -> A) (rows : list R) :
  match hd_error (map f (filter p rows)) with Some _ => true | None => false end
  = existsb p rows.
Proof.
  induction rows as [|r rows IH]; simpl; [reflexivity|].
  destruct (p r); simpl; [reflexivity | exact IH].
Qed.

(** ** Datasets *)



Lemma archive_dataset_result (c : Connection) (dataset_id : UUID) :
  result_of (archive_dataset dataset_id) c
  = Ok (existsb (fun r => (ds_id r =? dataset_id) && is_null (ds_archived r)) (datasets c)).
Proof.
  unfold result_of, archive_dataset, bind, ret, execute_on_datasets, datasets.
  cbn [fst]. rewrite rowcount_positive. reflexivity.
Qed.

Lemma restore_dataset_result (c : Connection) (dataset_id : UUID) :
  result_of (restore_dataset dataset_id) c
  = Ok (existsb (fun r => ds_id r =? dataset_id) (datasets c)).
Proof.
  unfold result_of, restore_dataset, bind, ret, execute_on_datasets, datasets.
  cbn [fst]. rewrite rowcount_positive. reflexivity.
Qed.

(** C5. [archive_dataset] stamps [now()] on exactly the rows of the id
    whose [archived] is NULL and tells whether there was one, so on a
    dataset that is present and active it returns True and then False;
    [restore_dataset] clears [archived] on the rows of the id and tells
    whether there was one, after which [archive_dataset] returns True
    again. *)
Theorem archive_dataset_twice_then_restore
        (c : Connection) (dataset_id : UUID) (d : DatasetRow)
        (Hin : In d (datasets c))
        (Hid : ds_id d = dataset_id)
        (Hactive : ds_archived d = None) :
  let c1 := after (archive_dataset dataset_id) c in
  let c2 := after (archive_dataset dataset_id) c1 in
  let c3 := after (restore_dataset dataset_id) c2 in
  result_of (archive_dataset dataset_id) c = Ok true
  /\ datasets c1 =
     map (fun r => if (ds_id r =? dataset_id) && is_null (ds_archived r)
                   then set_ds_archived (Some (conn_now c)) r else r)
         (datasets c)
  /\ result_of (archive_dataset dataset_id) c1 = Ok false
  /\ datasets c2 = datasets c1
  /\ result_of (restore_dataset dataset_id) c2 = Ok true
  /\ datasets c3 =
     map (fun r => if ds_id r =? dataset_id then set_ds_archived None r else r)
         (datasets c2)
  /\ result_of (archive_dataset dataset_id) c3 = Ok true
  /\ (forall c' id', result_of (archive_dataset id') c'
                     = Ok (existsb (fun r => (ds_id r =? id') && is_null (ds_archived r))
                                   (datasets c')))
  /\ (forall c' id', result_of (restore_dataset id') c'
                     = Ok (existsb (fun r => ds_id r =? id') (datasets c'))).
Proof.
  intros c1 c2 c3. subst c1 c2 c3 dataset_id.
  match goal with
  | |- ?A /\ ?B /\ ?C /\ ?D /\ ?E /\ ?F /\ ?G /\ _ /\ _ =>
      cut (A /\ B /\ C /\ D /\ E /\ F /\ G);
      [ intros (Ha & Hb & Hc & Hd & He & Hf & Hg);
        repeat (split; [assumption|]);
        split; intros c' id'; [apply archive_dataset_result | apply restore_dataset_result]
      | ]
  end.
  unfold result_of, after, archive_dataset, restore_dataset, bind, ret,
    execute_on_datasets, datasets in *.
  cbn [fst snd conn_db with_db with_datasets executed tbl_dataset conn_now].
  rewrite !rowcount_positive.
  set (active := fun r => (ds_id r =? ds_id d) && is_null (ds_archived r)).
  set (rows := tbl_dataset (conn_db c)) in *.
  assert (H1 : existsb active rows = true).
  { apply existsb_In with (r := d); [exact Hin|].
    unfold active. rewrite Hactive, Z.eqb_refl. reflexivity. }
  assert (H2 : forall t, existsb active (sql_update active (set_ds_archived (Some t)) rows)
                         = false).
  { intros t. apply update_none_left. intros r _. unfold active. simpl.
    apply andb_false_r. }
  assert (H3 : forall t, existsb (fun r => ds_id r =? ds_id d)
                                 (sql_update active (set_ds_archived (Some t)) rows) = true).
  { intros t. rewrite existsb_update_same by reflexivity.
    apply existsb_In with (r := d); [exact Hin|]. apply Z.eqb_refl. }
  rewrite H1, H2.
  rewrite (update_untouched _ _ _ (H2 _)).
  rewrite H3.
  repeat split.
  f_equal. apply existsb_exists.
  exists (set_ds_archived None d). split.
  - unfold sql_update. rewrite map_map. apply in_map_iff. exists d. split; [|exact Hin].
    unfold active. rewrite Hactive, Z.eqb_refl. simpl. rewrite Z.eqb_refl. reflexivity.
  - unfold active. simpl. rewrite Z.eqb_refl. reflexivity.
Qed.

(** Dataset 101 of the example catalogue is present and active. *)
Lemma archive_dataset_twice_then_restore_witness :
  result_of (archive_dataset 101) example_conn = Ok true
  /\ result_of (archive_dataset 101) (after (archive_dataset 101) example_conn) = Ok false.
Proof.
  pose proof (@archive_dataset_twice_then_restore example_conn 101
                (mkDataset 101 1 (Some 1) (DDict [("format", DStr "GeoTIFF")]) 10 "odc" None)
                (or_introl eq_refl) eq_refl eq_refl) as H.
  cbv zeta in H. destruct H as (H1 & _ & H3 & _). split; [exact H1 | exact H3].
Defined.



(** ** Unsupported search variants *)

(** C2. With [source_exprs] given or [with_source_ids] set,
    [search_datasets_query] raises AssertionError and [search_datasets]
    raises it leaving the connection untouched, so no statement was
    executed; [search_unique_datasets] raises NotImplementedError for every
    argument, again leaving the connection untouched. *)
Theorem lineage_and_unique_search_refused
        (c : Connection) (expressions : list Expression)
        (source_exprs : option (list Expression)) (select_fields : option (list PgField))
        (with_source_ids : bool) (limit_ : option nat) :
  (source_exprs <> None \/ with_source_ids = true ->
   search_datasets_query expressions source_exprs select_fields with_source_ids limit_
   = Raise AssertionError
   /\ search_datasets expressions source_exprs select_fields with_source_ids limit_ c
      = (Raise AssertionError, c))
  /\ search_unique_datasets_query expressions select_fields limit_ = Raise NotImplementedError
  /\ search_unique_datasets expressions select_fields limit_ c = (Raise NotImplementedError, c).
Proof.
  split; [|split; reflexivity].
  intros H.
  assert (Hq : search_datasets_query expressions source_exprs select_fields with_source_ids limit_
               = Raise AssertionError).
  { unfold search_datasets_query.
    destruct source_exprs as [s|]; [reflexivity|].
    destruct H as [H | H]; [congruence|]. rewrite H. reflexivity. }
  split; [exact Hq|].
  unfold search_datasets, bind, lift. rewrite Hq. reflexivity.
Qed.

(** A search of the example catalogue that asks for source ids. *)
Lemma lineage_and_unique_search_refused_witness :
  search_datasets [] None None true None example_conn = (Raise AssertionError, example_conn).
Proof.
  exact (proj2 (proj1 (@lineage_and_unique_search_refused example_conn [] None None true None)
                      (or_intror eq_refl))).
Defined.

(** ** Active fields *)

(** ** Active fields *)


(** An exception of another class is not absorbed: it leaves the generator. *)
Lemma active_names_other_failure (f : PgField) (rest : list PgField) (metadata_doc : Doc)
      (extract_ : Doc -> Result (option Value)) (e : Exception) :
  extract f = Some extract_ -> extract_ metadata_doc = Raise e -> absorbed e = false ->
  active_names_of (f :: rest) metadata_doc = Raise e.
Proof. intros Hex Hrun He. simpl. rewrite Hex, Hrun, He. reflexivity. Qed.



(** ** Products *)



(** ** Locations *)

Section Find.
Variable ch : ascii.

Lemma find_range (s : string) : find ch s = -1 \/ 0 <= find ch s.
Proof.
  induction s as [|a s IH]; simpl; [left; reflexivity|].
  destruct (Ascii.eqb a ch); [right; lia|].
  destruct (find ch s <? 0) eqn:E; [left; reflexivity|].
  apply Z.ltb_ge in E. right. lia.
Qed.

Lemma find_absent (s : string) :
  ~ In ch (list_ascii_of_string s) -> find ch s = -1.
Proof.
  induction s as [|a s IH]; simpl; intros Hnot; [reflexivity|].
  destruct (Ascii.eqb a ch) eqn:E.
  - apply Ascii.eqb_eq in E. exfalso. apply Hnot. left. exact E.
  - rewrite IH by (intros H; apply Hnot; right; exact H). reflexivity.
Qed.

Lemma find_first (scheme body : string) :
  ~ In ch (list_ascii_of_string scheme) ->
  find ch (scheme ++ String ch body) = Z.of_nat (String.length scheme).
Proof.
  induction scheme as [|a s IH]; intros Hnot.
  - simpl. rewrite Ascii.eqb_refl. reflexivity.
  - cbn [String.append find].
    destruct (Ascii.eqb a ch) eqn:E.
    + apply Ascii.eqb_eq in E. exfalso. apply Hnot. left. exact E.
    + rewrite IH by (intros H; apply Hnot; right; exact H).
      destruct (Z.of_nat (String.length s) <? 0) eqn:L.
      * apply Z.ltb_lt in L. lia.
      * cbn [String.length]. lia.
Qed.

Lemma substring_whole (s : string) : substring 0 (String.length s) s = s.
Proof. induction s as [|a s IH]; simpl; [reflexivity | rewrite IH; reflexivity]. Qed.

Lemma slice_to_scheme (scheme body : string) :
  slice_to (scheme ++ String ch body) (Z.of_nat (String.length scheme)) = scheme.
Proof.
  unfold slice_to. rewrite Nat2Z.id.
  induction scheme as [|a s IH]; simpl; [reflexivity | rewrite IH; reflexivity].
Qed.

Lemma slice_from_body (scheme body : string) :
  slice_from (scheme ++ String ch body) (Z.of_nat (String.length scheme) + 1) = body.
Proof.
  unfold slice_from.
  replace (Z.to_nat (Z.of_nat (String.length scheme) + 1)) with (S (String.length scheme))
    by lia.
  induction scheme as [|a s IH].
  - cbn [String.append String.length substring Nat.sub].
    rewrite Nat.sub_0_r. apply substring_whole.
  - cbn [String.append String.length]. cbn [substring Nat.sub]. exact IH.
Qed.
End Find.

Lemma split_uri_no_colon (uri_ : string) :
  ~ In ":"%char (list_ascii_of_string uri_) ->
  _split_uri uri_ = Raise (ValueError "Not a URI").
Proof.
  intros H. unfold _split_uri. rewrite (find_absent _ _ H). reflexivity.
Qed.

Lemma split_uri_first_colon (scheme body : string) :
  ~ In ":"%char (list_ascii_of_string scheme) ->
  _split_uri (scheme ++ String ":"%char body) = Ok (scheme, body).
Proof.
  intros H. unfold _split_uri. rewrite (find_first _ _ body H).
  destruct (Z.of_nat (String.length scheme) <? 0) eqn:L.
  - apply Z.ltb_lt in L. lia.
  - rewrite slice_to_scheme, slice_from_body. reflexivity.
Qed.

Lemma existsb_same {R} (p q : R -> bool) (rows : list R) :
  (forall r, p r = q r) -> existsb p rows = existsb q rows.
Proof.
  intros H. induction rows as [|r rows IH]; simpl; [reflexivity|].
  rewrite H, IH. reflexivity.
Qed.



(** ** Join resolution *)












(** ** Search and count *)

(** C1, at an input where they differ.  On the example catalogue, with the
    expression [product == "ls8_nbar"], [search_datasets] joins the product
    relation and returns the one dataset of that product, while
    [count_datasets], which joins nothing, counts 2: each of the two active
    datasets paired with the product row of that name. *)
Theorem count_datasets_differs_from_search :
  result_of (count_datasets [equals product_field "ls8_nbar"]) example_conn = Ok (Some 2)
  /\ direct_count example_conn [equals product_field "ls8_nbar"] = Ok 1
  /\ result_of (search_datasets [equals product_field "ls8_nbar"] None None false None)
               example_conn
     = Ok [DatasetRecord (mkDataset 101 1 (Some 1) (DDict [("format", DStr "GeoTIFF")])
                                    10 "odc" None)
                         ["file:///data/a.tif"]].
Proof. repeat split. Qed.

(** Two statements that join the same relations and name the same
    relations besides the anchor draw from the same rows. *)
Lemma from_rows_same (db : Database) (q1 q2 : Select) :
  (forall t, set_in t (sel_joins q1) = set_in t (sel_joins q2)) ->
  (forall t, t <> Dataset -> set_in t (select_tables q1) = set_in t (select_tables q2)) ->
  from_rows db q1 = from_rows db q2.
Proof.
  intros Hjoin Hnamed. unfold from_rows.
  rewrite (Hjoin MetadataType), (Hjoin Product), (Hjoin DatasetSource),
    (Hjoin DatasetLocation).
  rewrite (Hnamed MetadataType), (Hnamed Product), (Hnamed DatasetSource),
    (Hnamed DatasetLocation) by discriminate.
  reflexivity.
Qed.

Lemma fold_join (tables : list Relation) :
  forall q, fold_left join tables q
            = mkSelect (sel_columns q) (sel_from q) (sel_joins q ++ tables)
                       (sel_where q) (sel_limit q).
Proof.
  induction tables as [|t tables IH]; intros q; simpl.
  - rewrite app_nil_r. destruct q; reflexivity.
  - rewrite IH. simpl. rewrite <- app_assoc. reflexivity.
Qed.

Lemma set_in_app (t : Relation) (a b : list Relation) :
  set_in t (a ++ b) = set_in t a || set_in t b.
Proof. unfold set_in. apply existsb_app. Qed.


(** ** Counting through time *)

Section Series.
Variables (start period : Z).
Hypothesis period_positive : 0 < period.





End Series.




Lemma filter_all {A} (p : A -> bool) (l : list A) :
  (forall x, p x = true) -> filter p l = l.
Proof.
  intros Hp. induction l as [|x l IH]; simpl; [reflexivity|].
  rewrite Hp, IH. reflexivity.
Qed.

(** Where [_join_tables] finds nothing to join, [count_datasets] counts the
    rows a search returns. *)
Lemma count_datasets_agrees_without_joins (c : Connection) (expressions : list Expression) :
  _join_tables Dataset (Some expressions) None = [] ->
  result_of (count_datasets expressions) c
  = match direct_count c expressions with
    | Ok n => Ok (Some n)
    | Raise e => Raise e
    end.
Proof.
  intros Hjoins.
  unfold direct_count, result_of, search_datasets, search_datasets_query, bind, lift,
    count_datasets, scalar, execute_select.
  cbn [is_null negb truthy fst]. rewrite Hjoins. cbn [fold_left].
  unfold fetch, where_, limit, select_from, select.
  cbn [sel_columns sel_limit sel_where sel_from sel_joins take app]. rewrite length_map.
  rewrite filter_all by reflexivity.
  do 4 f_equal. unfold selected_rows.
  set (raw := _alchemify_expressions expressions). clearbody raw.
  rewrite from_rows_same
    with (q2 := mkSelect dataset_select_fields [Dataset] [] [and_ (archived_is_null :: raw)] None).
  - apply filter_ext. intros jr. cbn [sel_where forallb holds].
    rewrite andb_true_r. reflexivity.
  - intros t. reflexivity.
  - intros t Ht. unfold select_tables, set_in.
    cbn [sel_where sel_from sel_columns columns_tables app flat_map clause_tables
           column_table id_column existsb].
    rewrite app_nil_r.
    replace (Relation_eqb t Dataset) with false
      by (symmetry; destruct t; try reflexivity; congruence).
    reflexivity.
Qed.

(** ** The example catalogue, evaluated *)

Example split_uri_file :
  _split_uri "file:///data/a.tif" = Ok ("file", "///data/a.tif").
Proof. reflexivity. Qed.

Example split_uri_second_colon :
  _split_uri "s3://bucket/a:b" = Ok ("s3", "//bucket/a:b").
Proof. reflexivity. Qed.

Example through_time_on_example :
  result_of (count_datasets_through_time 0 70 10 added_field []) example_conn
  = Ok [(mkRange (Some 0) (Some 10), 0); (mkRange (Some 10) (Some 20), 2);
        (mkRange (Some 20) (Some 30), 0); (mkRange (Some 30) (Some 40), 0);
        (mkRange (Some 40) (Some 50), 0); (mkRange (Some 50) (Some 60), 0);
        (mkRange (Some 60) (Some 70), 0)].
Proof. reflexivity. Qed.

Example through_time_partial_period :
  result_of (count_datasets_through_time 0 25 10 added_field []) example_conn
  = Ok [(mkRange (Some 0) (Some 10), 0); (mkRange (Some 10) (Some 20), 2)].
Proof. reflexivity. Qed.

Example search_by_uri_on_example :
  direct_count example_conn [equals uri_field "file:///data/a.tif"] = Ok 1
  /\ direct_count example_conn [] = Ok 2.
Proof. split; reflexivity. Qed.

Example join_tables_on_example :
  _join_tables Dataset
               (Some [equals product_field "ls8_nbar"; equals uri_field "file:///data/a.tif";
                      equals format_field "GeoTIFF"])
               (Some [product_field])
  = [DatasetLocation; Product].
Proof. reflexivity. Qed.

(** ** What a search can return *)

Lemma in_from_rows_dataset (db : Database) (q : Select) (jr : JoinedRow) :
  In jr (from_rows db q) -> In (jr_dataset jr) (tbl_dataset db).
Proof.
  unfold from_rows. intros H.
  apply in_flat_map in H. destruct H as (d & Hd & H).
  apply in_flat_map in H. destruct H as (l & _ & H).
  apply in_flat_map in H. destruct H as (s & _ & H).
  apply in_flat_map in H. destruct H as (p & _ & H).
  apply in_map_iff in H. destruct H as (m & <- & _). exact Hd.
Qed.

Lemma from_rows_anchor_only (db : Database) (q : Select) :
  sel_joins q = [] ->
  (forall t, t <> Dataset -> set_in t (select_tables q) = false) ->
  from_rows db q = map (fun d => mkJoined d None None None None) (tbl_dataset db).
Proof.
  intros Hjoins Hnamed. unfold from_rows. rewrite Hjoins.
  rewrite (Hnamed MetadataType), (Hnamed Product), (Hnamed DatasetSource),
    (Hnamed DatasetLocation) by discriminate.
  cbn [set_in existsb from_part].
  induction (tbl_dataset db) as [|d ds IH]; [reflexivity|].
  rewrite map_cons, <- IH. reflexivity.
Qed.

Lemma in_take {A} (n : option nat) (l : list A) (x : A) : In x (take n l) -> In x l.
Proof.
  destruct n as [k|]; simpl; [|trivial].
  intros H. rewrite <- (firstn_skipn k l). apply in_or_app. left. exact H.
Qed.

Lemma length_take {A} (k : nat) (l : list A) : (List.length (take (Some k) l) <= k)%nat.
Proof. simpl. apply firstn_le_length. Qed.

Lemma search_query_shape (expressions : list Expression) (limit_ : option nat) :
  search_datasets_query expressions None None false limit_
  = Ok (mkSelect dataset_select_fields [Dataset]
                 (_join_tables Dataset (Some expressions) None)
                 [and_ (archived_is_null :: _alchemify_expressions expressions)]
                 limit_).
Proof.
  unfold search_datasets_query. cbn [is_null negb truthy].
  rewrite fold_join. reflexivity.
Qed.

Lemma archived_is_null_holds (jr : JoinedRow) :
  holds archived_is_null jr = is_null (ds_archived (jr_dataset jr)).
Proof. simpl. destruct (ds_archived (jr_dataset jr)); reflexivity. Qed.

Lemma search_fetches (c : Connection) (expressions : list Expression) (limit_ : option nat) :
  result_of (search_datasets expressions None None false limit_) c
  = Ok (take limit_
             (map (fun jr => DatasetRecord (jr_dataset jr)
                                           (active_uris (conn_db c) (jr_dataset jr)))
                  (selected_rows (conn_db c)
                                 (mkSelect dataset_select_fields [Dataset]
                                           (_join_tables Dataset (Some expressions) None)
                                           [and_ (archived_is_null
                                                    :: _alchemify_expressions expressions)]
                                           limit_)))).
Proof.
  unfold result_of, search_datasets, bind, lift. rewrite search_query_shape.
  reflexivity.
Qed.

Lemma selected_row_is_active (db : Database) (q : Select) (raw : list Clause) (jr : JoinedRow) :
  In jr (selected_rows db q) ->
  sel_where q = [and_ (archived_is_null :: raw)] ->
  In (jr_dataset jr) (tbl_dataset db) /\ ds_archived (jr_dataset jr) = None.
Proof.
  intros Hjr Hwhere. unfold selected_rows in Hjr. apply filter_In in Hjr.
  destruct Hjr as [Hfrom Hholds]. split; [exact (in_from_rows_dataset _ _ _ Hfrom)|].
  rewrite Hwhere in Hholds. cbn [forallb holds] in Hholds.
  rewrite archived_is_null_holds in Hholds.
  destruct (ds_archived (jr_dataset jr)); [discriminate | reflexivity].
Qed.

(** X1. A search with the default projection returns only records of
    stored datasets whose [archived] is NULL, each with its active URIs,
    and no more of them than the limit. *)
Theorem search_returns_only_active
        (c : Connection) (expressions : list Expression) (limit_ : option nat) :
  exists rows,
    result_of (search_datasets expressions None None false limit_) c = Ok rows
    /\ (forall row, In row rows ->
                    exists d, row = DatasetRecord d (active_uris (conn_db c) d)
                              /\ In d (datasets c) /\ ds_archived d = None)
    /\ (forall k, limit_ = Some k -> (List.length rows <= k)%nat).
Proof.
  rewrite search_fetches. eexists. split; [reflexivity|]. split.
  - intros row Hrow. apply in_take in Hrow. apply in_map_iff in Hrow.
    destruct Hrow as (jr & <- & Hjr).
    exists (jr_dataset jr). split; [reflexivity|].
    exact (@selected_row_is_active _ _ _ _ Hjr eq_refl).
  - intros k ->. apply length_take.
Qed.

(** A limit of 1 on the example catalogue. *)
Lemma search_returns_only_active_witness :
  exists rows,
    result_of (search_datasets [] None None false (Some 1%nat)) example_conn = Ok rows
    /\ (List.length rows <= 1)%nat.
Proof.
  destruct (@search_returns_only_active example_conn [] (Some 1%nat)) as (rows & H1 & _ & H3).
  exists rows. split; [exact H1 | exact (H3 1%nat eq_refl)].
Defined.

(** X2. With no expressions a search returns every stored dataset whose
    [archived] is NULL, one record each, and [count_datasets] counts
    them. *)
Theorem search_without_expressions (c : Connection) :
  let active := filter (fun d => is_null (ds_archived d)) (datasets c) in
  result_of (search_datasets [] None None false None) c
  = Ok (map (fun d => DatasetRecord d (active_uris (conn_db c) d)) active)
  /\ result_of (count_datasets []) c = Ok (Some (Z.of_nat (List.length active))).
Proof.
  intros active. subst active.
  assert (Hrows :
             selected_rows (conn_db c)
                           (mkSelect dataset_select_fields [Dataset] []
                                     [and_ [archived_is_null]] None)
             = map (fun d => mkJoined d None None None None)
                   (filter (fun d => is_null (ds_archived d)) (datasets c))).
  { unfold selected_rows.
    rewrite from_rows_anchor_only; [|reflexivity|].
    - unfold datasets. induction (tbl_dataset (conn_db c)) as [|d ds IH]; [reflexivity|].
      cbn [map filter sel_where forallb holds]. rewrite archived_is_null_holds.
      cbn [jr_dataset]. rewrite andb_true_r.
      destruct (is_null (ds_archived d)); cbn [map]; rewrite <- IH; reflexivity.
    - intros t Ht. destruct t; try congruence; reflexivity. }
  split.
  - unfold result_of, search_datasets, bind, lift. rewrite search_query_shape.
    unfold execute_select, fetch. cbn [fst sel_columns sel_limit take].
    change (_join_tables Dataset (Some []) None) with (@nil Relation).
    change (_alchemify_expressions []) with (@nil Clause).
    rewrite Hrows, map_map. reflexivity.
  - rewrite count_datasets_agrees_without_joins by reflexivity.
    unfold direct_count, result_of, search_datasets, bind, lift. rewrite search_query_shape.
    unfold execute_select, fetch. cbn [fst sel_columns sel_limit take].
    change (_join_tables Dataset (Some []) None) with (@nil Relation).
    change (_alchemify_expressions []) with (@nil Clause).
    rewrite Hrows, !length_map. reflexivity.
Qed.

(** X3. After [archive_dataset], no search with the default projection
    returns a record of that dataset id, whatever the expressions and the
    limit. *)
Theorem archived_dataset_leaves_search
        (c : Connection) (dataset_id : UUID) (expressions : list Expression)
        (limit_ : option nat) :
  exists rows,
    result_of (search_datasets expressions None None false limit_)
              (after (archive_dataset dataset_id) c) = Ok rows
    /\ forall d uris, In (DatasetRecord d uris) rows -> ds_id d <> dataset_id.
Proof.
  rewrite search_fetches. eexists. split; [reflexivity|].
  intros d uris Hin Hid. apply in_take in Hin. apply in_map_iff in Hin.
  destruct Hin as (jr & Heq & Hjr). injection Heq as <- _.
  destruct (@selected_row_is_active _ _ _ _ Hjr eq_refl) as [Hd Hactive].
  unfold after, archive_dataset, bind, ret, execute_on_datasets, datasets in Hd.
  cbn [fst snd conn_db with_db with_datasets executed tbl_dataset] in Hd.
  unfold sql_update in Hd. apply in_map_iff in Hd. destruct Hd as (r & Hr & _).
  destruct ((ds_id r =? dataset_id) && is_null (ds_archived r)) eqn:E.
  - rewrite <- Hr in Hactive. discriminate Hactive.
  - rewrite <- Hr in Hid, Hactive. rewrite Hid, Z.eqb_refl, Hactive in E. discriminate E.
Qed.

(** X4. Where [_join_tables] finds nothing to join, [count_datasets] returns
    the number of rows [search_datasets] returns for the same expressions
    with no select fields and no limit. *)
Theorem count_datasets_counts_search_rows (c : Connection) (expressions : list Expression)
        (Hjoins : _join_tables Dataset (Some expressions) None = []) :
  exists rows,
    result_of (search_datasets expressions None None false None) c = Ok rows
    /\ result_of (count_datasets expressions) c = Ok (Some (Z.of_nat (List.length rows))).
Proof.
  pose proof (count_datasets_agrees_without_joins c _ Hjoins) as H.
  unfold direct_count in H.
  destruct (result_of (search_datasets expressions None None false None) c) as [rows|e] eqn:E.
  - exists rows. split; [reflexivity | exact H].
  - exfalso. unfold result_of, search_datasets, bind, lift in E.
    rewrite search_query_shape in E. discriminate E.
Qed.

(** An expression on a document field of the dataset relation. *)
Lemma count_datasets_counts_search_rows_witness :
  exists rows,
    result_of (search_datasets [equals format_field "GeoTIFF"] None None false None)
              example_conn = Ok rows
    /\ result_of (count_datasets [equals format_field "GeoTIFF"]) example_conn
       = Ok (Some (Z.of_nat (List.length rows))).
Proof.
  exact (@count_datasets_counts_search_rows example_conn [equals format_field "GeoTIFF"]
                                            eq_refl).
Defined.

(** ** Reading datasets back *)

Lemma selected_rows_on_dataset (db : Database) (f : DatasetRow -> Value) (p : Value -> bool) :
  selected_rows db (where_ (select dataset_select_fields) [Test (DatasetColumn f) p])
  = map (fun d => mkJoined d None None None None)
        (filter (fun d => p (f d)) (tbl_dataset db)).
Proof.
  unfold selected_rows. rewrite from_rows_anchor_only.
  - induction (tbl_dataset db) as [|d ds IH]; [reflexivity|].
    cbn [map filter where_ select sel_where app forallb holds eval_column jr_dataset].
    cbn [map filter where_ select sel_where app forallb holds eval_column jr_dataset] in IH.
    rewrite andb_true_r. destruct (p (f d)); cbn [map]; rewrite IH; reflexivity.
  - reflexivity.
  - intros t Ht. destruct t; try congruence; reflexivity.
Qed.

Lemma hd_error_map {A B} (f : A -> B) (l : list A) :
  hd_error (map f l) = option_map f (hd_error l).
Proof. destruct l; reflexivity. Qed.

Lemma get_dataset_first_row (c : Connection) (dataset_id : UUID) :
  result_of (get_dataset dataset_id) c
  = Ok (option_map (fun d => DatasetRecord d (active_uris (conn_db c) d))
                   (hd_error (filter (fun d => ds_id d =? dataset_id) (datasets c)))).
Proof.
  unfold result_of, get_dataset, fetch, id_is, id_column. cbn [fst].
  rewrite selected_rows_on_dataset.
  cbn [where_ select sel_columns sel_limit take].
  rewrite map_map, hd_error_map. reflexivity.
Qed.

Lemma active_uris_get_locations (c : Connection) (d : DatasetRow) :
  result_of (get_locations (ds_id d)) c = Ok (active_uris (conn_db c) d).
Proof. reflexivity. Qed.

(** X5. [get_dataset] returns None exactly when no row has the id; otherwise
    it returns the first row with the id, archived or not, together with the
    list [get_locations] returns for the id. *)
Theorem get_dataset_with_locations (c : Connection) (dataset_id : UUID) :
  (result_of (get_dataset dataset_id) c = Ok None
   <-> forall d, In d (datasets c) -> ds_id d <> dataset_id)
  /\ (forall d rest,
         filter (fun r => ds_id r =? dataset_id) (datasets c) = d :: rest ->
         exists uris, result_of (get_locations dataset_id) c = Ok uris
                      /\ result_of (get_dataset dataset_id) c
                         = Ok (Some (DatasetRecord d uris))).
Proof.
  rewrite get_dataset_first_row. split.
  - destruct (filter (fun d => ds_id d =? dataset_id) (datasets c)) as [|d rest] eqn:E;
      cbn [hd_error option_map].
    + split; [|reflexivity]. intros _ d Hin Hid.
      assert (H : In d (filter (fun d => ds_id d =? dataset_id) (datasets c))).
      { apply filter_In. split; [exact Hin | apply Z.eqb_eq; exact Hid]. }
      rewrite E in H. exact H.
    + split; [discriminate|]. intros H. exfalso.
      assert (Hd : In d (filter (fun d => ds_id d =? dataset_id) (datasets c)))
        by (rewrite E; left; reflexivity).
      apply filter_In in Hd. destruct Hd as [Hin Hid]. apply Z.eqb_eq in Hid.
      exact (H d Hin Hid).
  - intros d rest E. rewrite E. cbn [hd_error option_map].
    assert (Hid : ds_id d = dataset_id).
    { assert (Hd : In d (filter (fun r => ds_id r =? dataset_id) (datasets c)))
        by (rewrite E; left; reflexivity).
      apply filter_In in Hd. apply Z.eqb_eq. apply Hd. }
    exists (active_uris (conn_db c) d). split; [|reflexivity].
    rewrite <- Hid. apply active_uris_get_locations.
Qed.

(** Dataset 101 of the example catalogue and its one location. *)
Lemma get_dataset_with_locations_witness :
  result_of (get_dataset 101) example_conn
  = Ok (Some (DatasetRecord (mkDataset 101 1 (Some 1) (DDict [("format", DStr "GeoTIFF")])
                                       10 "odc" None)
                            ["file:///data/a.tif"])).
Proof.
  destruct (proj2 (@get_dataset_with_locations example_conn 101) _ _ eq_refl)
    as (uris & Huris & Hget).
  injection Huris as <-. exact Hget.
Defined.

(** X6. After [insert_dataset] of an id the table did not hold, for a
    registered product, [get_dataset] returns the inserted row: the id, the
    product, the document, the metadata type the product row refers to, and
    [archived] NULL. *)
Theorem insert_then_get_dataset
        (c : Connection) (doc : Doc) (dataset_id : UUID) (product_id : Z)
        (p : ProductRow) (others : list ProductRow)
        (Hfresh : forall d, In d (datasets c) -> ds_id d <> dataset_id)
        (Hproduct : filter (fun q => prod_id q =? product_id) (products c) = p :: others) :
  exists row uris,
    result_of (get_dataset dataset_id) (after (insert_dataset doc dataset_id product_id) c)
    = Ok (Some (DatasetRecord row uris))
    /\ ds_id row = dataset_id /\ ds_product_ref row = product_id
    /\ ds_metadata_doc row = doc /\ ds_archived row = None
    /\ ds_metadata_type_ref row = Some (prod_metadata_type_ref p).
Proof.
  rewrite get_dataset_first_row.
  unfold after, insert_dataset, bind, ret, execute_on_datasets, datasets, products in *.
  cbn [fst snd conn_db with_db with_datasets executed tbl_dataset tbl_product].
  assert (Habsent : existsb (fun r => ds_id r =? dataset_id) (tbl_dataset (conn_db c)) = false).
  { apply not_true_is_false. intros H. apply existsb_exists in H.
    destruct H as (d & Hin & Hid). apply Z.eqb_eq in Hid. exact (Hfresh d Hin Hid). }
  assert (Hnone : filter (fun d => ds_id d =? dataset_id) (tbl_dataset (conn_db c)) = []).
  { clear -Habsent. induction (tbl_dataset (conn_db c)) as [|d ds IH]; [reflexivity|].
    simpl in *. apply orb_false_iff in Habsent. destruct Habsent as [Hd Hds].
    rewrite Hd. exact (IH Hds). }
  unfold sql_insert_do_nothing. rewrite Habsent.
  rewrite filter_app, Hnone. cbn [filter app ds_id]. rewrite Z.eqb_refl.
  cbn [hd_error option_map].
  eexists. eexists. split; [reflexivity|].
  cbn [ds_id ds_product_ref ds_metadata_doc ds_archived ds_metadata_type_ref].
  repeat (split; [reflexivity|]).
  rewrite Hproduct. reflexivity.
Qed.

(** A fresh id on the example catalogue. *)
Lemma insert_then_get_dataset_witness :
  exists row uris,
    result_of (get_dataset 103) (after (insert_dataset (DDict []) 103 1) example_conn)
    = Ok (Some (DatasetRecord row uris))
    /\ ds_metadata_type_ref row = Some 1.
Proof.
  assert (Hfresh : forall d, In d (datasets example_conn) -> ds_id d <> 103).
  { intros d Hin Hid. simpl in Hin.
    destruct Hin as [<- | [<- | []]]; simpl in Hid; lia. }
  destruct (@insert_then_get_dataset example_conn (DDict []) 103 1 _ _ Hfresh eq_refl)
    as (row & uris & H & Hrest).
  exists row, uris. split; [exact H|]. apply Hrest.
Defined.




(** ** Deleting a dataset *)

Lemma filter_none {R} (p : R -> bool) (rows : list R) :
  existsb p rows = false -> filter p rows = [].
Proof.
  induction rows as [|r rows IH]; [reflexivity|].
  simpl. intros H. apply orb_false_iff in H. destruct H as [Hr Hrows].
  rewrite Hr. exact (IH Hrows).
Qed.

Lemma delete_none_left {R} (p : R -> bool) (rows : list R) :
  existsb p (sql_delete p rows) = false.
Proof.
  unfold sql_delete. induction rows as [|r rows IH]; [reflexivity|].
  simpl. destruct (p r) eqn:E; simpl; [exact IH | rewrite E, IH; reflexivity].
Qed.

(** X8. For a dataset that no lineage edge names as its source (the
    references between the tables are enforced by the schema, which is not
    modelled), [delete_dataset] deletes the locations of the dataset, the
    lineage edges of the dataset and the dataset rows of the id, and nothing
    else; it returns whether a dataset row had the id. Afterwards
    [contains_dataset] is False, [get_dataset] is None, [get_locations] is
    empty, and a second [delete_dataset] returns False. *)
Theorem delete_dataset_removes
        (c : Connection) (dataset_id : UUID)
        (Hsource : forall s, In s (sources c) -> src_source_dataset_ref s <> dataset_id) :
  let c1 := after (delete_dataset dataset_id) c in
  result_of (delete_dataset dataset_id) c
  = Ok (existsb (fun r => ds_id r =? dataset_id) (datasets c))
  /\ datasets c1 = filter (fun r => negb (ds_id r =? dataset_id)) (datasets c)
  /\ locations c1 = filter (fun l => negb (loc_dataset_ref l =? dataset_id)) (locations c)
  /\ sources c1 = filter (fun s => negb (src_dataset_ref s =? dataset_id)) (sources c)
  /\ products c1 = products c
  /\ result_of (contains_dataset dataset_id) c1 = Ok false
  /\ result_of (get_dataset dataset_id) c1 = Ok None
  /\ result_of (get_locations dataset_id) c1 = Ok []
  /\ result_of (delete_dataset dataset_id) c1 = Ok false.
Proof.
  intros c1. subst c1. rewrite get_dataset_first_row.
  unfold result_of, after, delete_dataset, contains_dataset, get_locations, bind, ret,
    execute_on_datasets, execute_on_locations, execute_on_sources,
    datasets, locations, sources, products.
  cbn [fst snd conn_db with_db with_datasets with_locations with_sources executed
         tbl_dataset tbl_dataset_location tbl_dataset_source tbl_product].
  rewrite !rowcount_positive, fetchone_present.
  fold (sql_delete (fun r => ds_id r =? dataset_id) (tbl_dataset (conn_db c))).
  fold (sql_delete (fun l => loc_dataset_ref l =? dataset_id)
                   (tbl_dataset_location (conn_db c))).
  rewrite !delete_none_left.
  rewrite (filter_none _ _ (delete_none_left (fun r => ds_id r =? dataset_id) _)).
  assert (Hloc : filter (fun l => (loc_dataset_ref l =? dataset_id) && is_null (loc_archived l))
                        (sql_delete (fun l => loc_dataset_ref l =? dataset_id)
                                    (tbl_dataset_location (conn_db c))) = []).
  { apply filter_none. apply not_true_is_false. intros H.
    apply existsb_exists in H. destruct H as (l & Hin & Hl).
    apply andb_true_iff in Hl. destruct Hl as [Hl _].
    assert (Hex : existsb (fun l => loc_dataset_ref l =? dataset_id)
                          (sql_delete (fun l => loc_dataset_ref l =? dataset_id)
                                      (tbl_dataset_location (conn_db c))) = true)
      by (apply existsb_In with (r := l); assumption).
    rewrite delete_none_left in Hex. discriminate Hex. }
  rewrite Hloc. repeat split.
Qed.

(** Dataset 102 of the example catalogue has no lineage. *)
Lemma delete_dataset_removes_witness :
  result_of (delete_dataset 102) example_conn = Ok true
  /\ result_of (contains_dataset 102) (after (delete_dataset 102) example_conn) = Ok false.
Proof.
  pose proof (@delete_dataset_removes example_conn 102) as H.
  cbv zeta in H. destruct H as (H1 & _ & _ & _ & _ & H6 & _).
  - intros s Hin. destruct Hin.
  - split; [exact H1 | exact H6].
Defined.

(** ** Lineage edges *)



(** ** Listing dataset ids *)

Lemma filter_split_permutation {R} (p : R -> bool) (rows : list R) :
  Permutation (filter (fun r => negb (p r)) rows ++ filter p rows) rows.
Proof.
  induction rows as [|r rows IH]; [constructor|].
  simpl. destruct (p r); simpl.
  - apply Permutation_sym, Permutation_cons_app, Permutation_sym, IH.
  - constructor. exact IH.
Qed.

(** X10. [all_dataset_ids(True)] and [all_dataset_ids(False)] together list
    the id of every stored dataset row exactly once. After [archive_dataset]
    the id is not among the active ids, and after [restore_dataset] it is
    not among the archived ids. *)
Theorem all_dataset_ids_partition (c : Connection) (dataset_id : UUID) :
  (exists archived active,
      result_of (all_dataset_ids true) c = Ok archived
      /\ result_of (all_dataset_ids false) c = Ok active
      /\ Permutation (archived ++ active) (map ds_id (datasets c)))
  /\ (exists active,
         result_of (all_dataset_ids false) (after (archive_dataset dataset_id) c) = Ok active
         /\ ~ In dataset_id active)
  /\ (exists archived,
         result_of (all_dataset_ids true) (after (restore_dataset dataset_id) c) = Ok archived
         /\ ~ In dataset_id archived).
Proof.
  unfold result_of, all_dataset_ids, after, archive_dataset, restore_dataset, bind, ret,
    execute_on_datasets, datasets.
  cbn [fst snd conn_db with_db with_datasets executed tbl_dataset].
  split; [|split].
  - eexists. eexists. split; [reflexivity|]. split; [reflexivity|].
    rewrite <- map_app. apply Permutation_map.
    apply (filter_split_permutation (fun r => is_null (ds_archived r))).
  - eexists. split; [reflexivity|]. intros H.
    apply in_map_iff in H. destruct H as (d & Hid & Hd).
    apply filter_In in Hd. destruct Hd as [Hd Hactive].
    unfold sql_update in Hd. apply in_map_iff in Hd. destruct Hd as (r & Hr & _).
    destruct ((ds_id r =? dataset_id) && is_null (ds_archived r)) eqn:E; subst d.
    + discriminate Hactive.
    + rewrite Hid, Z.eqb_refl, Hactive in E. discriminate E.
  - eexists. split; [reflexivity|]. intros H.
    apply in_map_iff in H. destruct H as (d & Hid & Hd).
    apply filter_In in Hd. destruct Hd as [Hd Harchived].
    unfold sql_update in Hd. apply in_map_iff in Hd. destruct Hd as (r & Hr & _).
    destruct (ds_id r =? dataset_id) eqn:E; subst d.
    + discriminate Harchived.
    + rewrite Hid, Z.eqb_refl in E. discriminate E.
Qed.

Lemma in_in_ (ids : list UUID) (x : UUID) : in_ ids x = true <-> In x ids.
Proof.
  unfold in_. rewrite existsb_exists. split.
  - intros (y & Hy & Heq). apply Z.eqb_eq in Heq. subst y. exact Hy.
  - intros H. exists x. split; [exact H | apply Z.eqb_refl].
Qed.

(** X11. [datasets_intersection] returns exactly the given ids that are
    stored, so none for an empty argument; [get_datasets] returns the
    records of the same rows, archived or not. *)
Theorem datasets_intersection_members (c : Connection) (dataset_ids : list UUID) :
  exists rows,
    result_of (datasets_intersection dataset_ids) c = Ok (map ds_id rows)
    /\ result_of (get_datasets dataset_ids) c
       = Ok (map (fun d => DatasetRecord d (active_uris (conn_db c) d)) rows)
    /\ (forall d, In d rows <-> In d (datasets c) /\ In (ds_id d) dataset_ids)
    /\ (dataset_ids = [] -> rows = []).
Proof.
  exists (filter (fun r => in_ dataset_ids (ds_id r)) (datasets c)).
  split; [reflexivity|]. split; [|split].
  - unfold result_of, get_datasets, execute_select, fetch, id_column. cbn [fst].
    rewrite selected_rows_on_dataset.
    cbn [where_ select sel_columns sel_limit take]. rewrite map_map. reflexivity.
  - intros d. rewrite filter_In, in_in_. reflexivity.
  - intros ->. unfold in_. cbn [existsb].
    induction (datasets c) as [|d ds IH]; [reflexivity | exact IH].
Qed.

(** No ids asked for on the example catalogue. *)
Lemma datasets_intersection_members_witness :
  result_of (datasets_intersection []) example_conn = Ok [].
Proof.
  destruct (@datasets_intersection_members example_conn []) as (rows & H & _ & _ & Hnil).
  rewrite H, (Hnil eq_refl). reflexivity.
Defined.

(** ** Listing locations *)

Lemma insert_newest_permutation (r : LocationRow) (l : list LocationRow) :
  Permutation (insert_newest r l) (r :: l).
Proof.
  induction l as [|x t IH]; simpl; [apply Permutation_refl|].
  destruct (newer r x); [apply Permutation_refl|].
  apply perm_trans with (x :: r :: t); [constructor; exact IH | constructor].
Qed.

Lemma order_by_newest_permutation (l : list LocationRow) :
  Permutation (order_by_newest l) l.
Proof.
  induction l as [|r l IH]; simpl; [constructor|].
  apply perm_trans with (r :: order_by_newest l);
    [apply insert_newest_permutation | constructor; exact IH].
Qed.

Lemma newer_false (a b : LocationRow) : newer b a = false <-> newest_first a b.
Proof.
  unfold newer, newest_first.
  rewrite orb_false_iff, andb_false_iff, Z.ltb_ge, Z.eqb_neq, Z.ltb_ge. lia.
Qed.

Lemma newer_true (a b : LocationRow) : newer a b = true -> newest_first a b.
Proof.
  unfold newer, newest_first.
  rewrite orb_true_iff, andb_true_iff, !Z.ltb_lt, Z.eqb_eq. lia.
Qed.

Lemma insert_newest_sorted (r : LocationRow) (l : list LocationRow) :
  Sorted newest_first l -> Sorted newest_first (insert_newest r l).
Proof.
  induction l as [|x t IH]; intros Hs; simpl.
  - repeat constructor.
  - destruct (newer r x) eqn:E.
    + constructor; [exact Hs|]. constructor. apply newer_true. exact E.
    + inversion Hs as [|? ? Ht Hhd]; subst.
      constructor; [exact (IH Ht)|].
      destruct t as [|y t']; simpl.
      * constructor. apply newer_false. exact E.
      * destruct (newer r y).
        -- constructor. apply newer_false. exact E.
        -- inversion Hhd; subst. constructor. assumption.
Qed.

Lemma order_by_newest_sorted (l : list LocationRow) : Sorted newest_first (order_by_newest l).
Proof.
  induction l as [|r l IH]; simpl; [constructor|].
  apply insert_newest_sorted. exact IH.
Qed.

(** X12. [get_locations] returns the URI of every row of the dataset whose
    [archived] is NULL, once per row, the most recently added first and,
    among rows added at the same time, the highest row id first. *)
Theorem get_locations_newest_first (c : Connection) (dataset_id : UUID) :
  exists rows,
    result_of (get_locations dataset_id) c = Ok (map uri rows)
    /\ Permutation rows
                   (filter (fun l => (loc_dataset_ref l =? dataset_id)
                                     && is_null (loc_archived l))
                           (locations c))
    /\ Sorted newest_first rows.
Proof.
  eexists. split; [reflexivity|]. split.
  - apply order_by_newest_permutation.
  - apply order_by_newest_sorted.
Qed.

Lemma in_get_locations (c : Connection) (dataset_id : UUID) (u : string) :
  (exists l, result_of (get_locations dataset_id) c = Ok l /\ In u l)
  <-> exists r, In r (locations c) /\ loc_dataset_ref r = dataset_id
                /\ loc_archived r = None /\ uri r = u.
Proof.
  unfold result_of, get_locations, locations. cbn [fst]. split.
  - intros (l & Hl & Hin). injection Hl as <-.
    apply in_map_iff in Hin. destruct Hin as (r & Hu & Hr).
    apply (Permutation_in _ (order_by_newest_permutation _)) in Hr.
    apply filter_In in Hr. destruct Hr as [Hr Hc].
    apply andb_true_iff in Hc. destruct Hc as [Hid Hnull].
    exists r. repeat split; try assumption.
    + apply Z.eqb_eq. exact Hid.
    + destruct (loc_archived r); [discriminate | reflexivity].
  - intros (r & Hr & Hid & Hnull & Hu). eexists. split; [reflexivity|].
    apply in_map_iff. exists r. split; [exact Hu|].
    apply (Permutation_in _ (Permutation_sym (order_by_newest_permutation _))).
    apply filter_In. split; [exact Hr|].
    rewrite Hid, Hnull, Z.eqb_refl. reflexivity.
Qed.

Lemma uri_parts (s1 b1 s2 b2 : string) :
  ~ In ":"%char (list_ascii_of_string s1) ->
  ~ In ":"%char (list_ascii_of_string s2) ->
  make_uri s1 b1 = make_uri s2 b2 -> s1 = s2 /\ b1 = b2.
Proof.
  unfold make_uri. revert s2.
  induction s1 as [|a s1 IH]; intros s2 H1 H2 Heq; destruct s2 as [|a2 s2]; simpl in *.
  - injection Heq as <-. split; reflexivity.
  - injection Heq as <- _. exfalso. apply H2. left. reflexivity.
  - injection Heq as -> _. exfalso. apply H1. left. reflexivity.
  - injection Heq as <- Heq.
    destruct (IH s2) as [-> ->]; [tauto | tauto | exact Heq | split; reflexivity].
Qed.

Lemma in_update {R} (w : R -> bool) (f : R -> R) (rows : list R) (r' : R) :
  In r' (sql_update w f rows) <-> exists r, In r rows /\ r' = (if w r then f r else r).
Proof.
  unfold sql_update. rewrite in_map_iff. split; intros (r & H1 & H2); exists r; auto.
Qed.

Lemma insert_by_added_permutation (r : LocationRow) (l : list LocationRow) :
  Permutation (insert_by_added r l) (r :: l).
Proof.
  induction l as [|x t IH]; simpl; [apply Permutation_refl|].
  destruct (loc_added x <? loc_added r); [apply Permutation_refl|].
  apply perm_trans with (x :: r :: t); [constructor; exact IH | constructor].
Qed.

Lemma order_by_added_permutation (l : list LocationRow) : Permutation (order_by_added l) l.
Proof.
  induction l as [|r l IH]; simpl; [constructor|].
  apply perm_trans with (r :: order_by_added l);
    [apply insert_by_added_permutation | constructor; exact IH].
Qed.

(** What the two listings hold, row by row. *)
Lemma get_locations_listing (c : Connection) (dataset_id : UUID) :
  exists l, result_of (get_locations dataset_id) c = Ok l
            /\ forall u, In u l <->
                         exists r, In r (locations c) /\ loc_dataset_ref r = dataset_id
                                   /\ loc_archived r = None /\ uri r = u.
Proof.
  eexists. split; [reflexivity|]. intros u.
  rewrite <- in_get_locations. split.
  - intros H. eexists. split; [reflexivity | exact H].
  - intros (l & Hl & Hin). injection Hl as <-. exact Hin.
Qed.

Lemma get_archived_locations_listing (c : Connection) (dataset_id : UUID) :
  exists l, result_of (get_archived_locations dataset_id) c = Ok l
            /\ forall u t, In (u, t) l <->
                           exists r, In r (locations c) /\ loc_dataset_ref r = dataset_id
                                     /\ loc_archived r = t /\ t <> None /\ uri r = u.
Proof.
  eexists. split; [reflexivity|]. intros u t. unfold locations.
  rewrite in_map_iff. split.
  - intros (r & Heq & Hr). injection Heq as <- <-.
    apply (Permutation_in _ (order_by_added_permutation _)) in Hr.
    apply filter_In in Hr. destruct Hr as [Hr Hc].
    apply andb_true_iff in Hc. destruct Hc as [Hid Harch].
    exists r. repeat split; try assumption.
    + apply Z.eqb_eq. exact Hid.
    + destruct (loc_archived r); [discriminate | discriminate Harch].
  - intros (r & Hr & Hid & Harch & Hsome & Hu). exists r. split; [congruence|].
    apply (Permutation_in _ (Permutation_sym (order_by_added_permutation _))).
    apply filter_In. split; [exact Hr|].
    rewrite Hid, Z.eqb_refl. destruct (loc_archived r); [reflexivity | congruence].
Qed.

Lemma key_iff_uri (c : Connection) (dataset_id : UUID) (scheme body : string) (r : LocationRow) :
  clean_schemes c -> ~ In ":"%char (list_ascii_of_string scheme) -> In r (locations c) ->
  (location_key dataset_id scheme body r = true
   <-> loc_dataset_ref r = dataset_id /\ uri r = make_uri scheme body).
Proof.
  intros Hclean Hscheme Hr. unfold location_key.
  rewrite !andb_true_iff, Z.eqb_eq, !String.eqb_eq. split.
  - intros [[Hid Hs] Hb]. split; [exact Hid|]. unfold uri, make_uri. rewrite Hs, Hb. reflexivity.
  - intros [Hid Hu]. change (uri r) with (make_uri (loc_uri_scheme r) (loc_uri_body r)) in Hu.
    apply uri_parts in Hu; [|exact (Hclean r Hr)|exact Hscheme].
    destruct Hu as [Hs Hb]. repeat split; assumption.
Qed.

(** X13. For a stored dataset and a URI [scheme:body] not yet recorded for
    it, [insert_dataset_location] returns True and [get_locations] then
    lists that URI together with what it listed before. *)
Theorem insert_location_then_listed
        (c : Connection) (dataset_id : UUID) (scheme body : string)
        (Hdataset : existsb (fun r => ds_id r =? dataset_id) (datasets c) = true)
        (Hscheme : ~ In ":"%char (list_ascii_of_string scheme))
        (Hnew : existsb (location_key dataset_id scheme body) (locations c) = false) :
  let uri_ := make_uri scheme body in
  let c1 := after (insert_dataset_location dataset_id uri_) c in
  result_of (insert_dataset_location dataset_id uri_) c = Ok true
  /\ exists before listed,
      result_of (get_locations dataset_id) c = Ok before
      /\ result_of (get_locations dataset_id) c1 = Ok listed
      /\ forall u, In u listed <-> u = uri_ \/ In u before.
Proof.
  intros uri_ c1.
  assert (Hkey : forall rows,
             existsb (fun r => String.eqb (loc_uri_scheme r) scheme
                               && String.eqb (loc_uri_body r) body
                               && (loc_dataset_ref r =? dataset_id)) rows
             = existsb (location_key dataset_id scheme body) rows).
  { intros rows. apply existsb_same. intros r. unfold location_key.
    destruct (loc_dataset_ref r =? dataset_id), (String.eqb (loc_uri_scheme r) scheme),
      (String.eqb (loc_uri_body r) body); reflexivity. }
  assert (Hrun : result_of (insert_dataset_location dataset_id uri_) c = Ok true
                 /\ locations c1
                    = locations c ++ [mkLocation (conn_location_seq c) dataset_id scheme body
                                                 (conn_now c) None]).
  { subst c1 uri_.
    unfold result_of, after, insert_dataset_location, bind, lift, ret,
      execute_on_locations, locations, make_uri in *.
    rewrite (split_uri_first_colon _ body Hscheme).
    cbn [fst snd conn_db with_db with_locations executed next_location_id
           tbl_dataset_location conn_location_seq conn_now].
    rewrite insert_rowcount_positive. unfold sql_insert_do_nothing.
    rewrite !Hkey, Hnew. split; reflexivity. }
  destruct Hrun as [Hres Hlocs]. split; [exact Hres|].
  destruct (get_locations_listing c dataset_id) as (before & Hbefore & Hb).
  destruct (get_locations_listing c1 dataset_id) as (listed & Hlisted & Hl).
  exists before, listed. split; [exact Hbefore|]. split; [exact Hlisted|].
  intros u. rewrite Hl, Hb, Hlocs. split.
  - intros (r & Hr & Hid & Hnull & Hu). apply in_app_or in Hr. destruct Hr as [Hr | [<- | []]].
    + right. exists r. repeat split; assumption.
    + left. symmetry. exact Hu.
  - intros [-> | (r & Hr & Hid & Hnull & Hu)].
    + eexists. split; [apply in_or_app; right; left; reflexivity|]. repeat split.
    + exists r. split; [apply in_or_app; left; exact Hr|]. repeat split; assumption.
Qed.

(** A second location for dataset 101 of the example catalogue. *)
Lemma insert_location_then_listed_witness :
  result_of (insert_dataset_location 101 (make_uri "s3" "//bucket/a.tif")) example_conn
  = Ok true.
Proof.
  refine (proj1 (@insert_location_then_listed example_conn 101 "s3" "//bucket/a.tif"
                   eq_refl _ eq_refl)).
  vm_compute. intuition discriminate.
Defined.

(** X14. When no stored scheme holds a [:], [archive_location] of
    [scheme:body] takes that URI, and no other, out of what [get_locations]
    lists, and adds it with the current time to what
    [get_archived_locations] lists exactly when it was listed as active; it
    returns True in that case only. *)
Theorem archive_location_moves_uri
        (c : Connection) (dataset_id : UUID) (scheme body : string)
        (Hclean : clean_schemes c)
        (Hscheme : ~ In ":"%char (list_ascii_of_string scheme)) :
  let uri_ := make_uri scheme body in
  let c1 := after (archive_location dataset_id uri_) c in
  exists before listed archived_before archived,
    result_of (get_locations dataset_id) c = Ok before
    /\ result_of (get_locations dataset_id) c1 = Ok listed
    /\ result_of (get_archived_locations dataset_id) c = Ok archived_before
    /\ result_of (get_archived_locations dataset_id) c1 = Ok archived
    /\ (forall u, In u listed <-> In u before /\ u <> uri_)
    /\ (forall u t, In (u, t) archived <->
                    In (u, t) archived_before
                    \/ (u = uri_ /\ t = Some (conn_now c) /\ In uri_ before))
    /\ (result_of (archive_location dataset_id uri_) c = Ok true <-> In uri_ before)
    /\ (result_of (archive_location dataset_id uri_) c = Ok false <-> ~ In uri_ before).
Proof.
  intros uri_ c1.
  set (w := fun r => location_key dataset_id scheme body r && is_null (loc_archived r)).
  assert (Hrun : result_of (archive_location dataset_id uri_) c = Ok (existsb w (locations c))
                 /\ locations c1
                    = sql_update w (set_loc_archived (Some (conn_now c))) (locations c)).
  { subst c1 uri_.
    unfold result_of, after, archive_location, bind, lift, ret,
      execute_on_locations, locations, make_uri.
    rewrite (split_uri_first_colon _ body Hscheme).
    cbn [fst snd conn_db with_db with_locations executed tbl_dataset_location conn_now].
    rewrite rowcount_positive. split; reflexivity. }
  destruct Hrun as [Hres Hlocs].
  destruct (get_locations_listing c dataset_id) as (before & Hbefore & Hb).
  destruct (get_locations_listing c1 dataset_id) as (listed & Hlisted & Hl).
  destruct (get_archived_locations_listing c dataset_id) as (ab & Hab & Ha).
  destruct (get_archived_locations_listing c1 dataset_id) as (aa & Haa & Ha1).
  exists before, listed, ab, aa.
  repeat (split; [assumption|]).
  assert (Hw : forall r, In r (locations c) ->
                         (w r = true <-> loc_dataset_ref r = dataset_id
                                         /\ uri r = uri_ /\ loc_archived r = None)).
  { intros r Hr. unfold w. rewrite andb_true_iff, (@key_iff_uri c dataset_id scheme body r Hclean Hscheme Hr).
    destruct (loc_archived r); simpl; intuition congruence. }
  assert (Hactive : existsb w (locations c) = true <-> In uri_ before).
  { rewrite Hb, existsb_exists. split.
    - intros (r & Hr & Hwr). apply (Hw r Hr) in Hwr. exists r. tauto.
    - intros (r & Hr & Hid & Hnull & Hu). exists r. split; [exact Hr|]. apply Hw; tauto. }
  split; [|split; [|split]].
  - intros u. rewrite Hl, Hb, Hlocs. split.
    + intros (r' & Hr' & Hid & Hnull & Hu). apply in_update in Hr'.
      destruct Hr' as (r & Hr & ->). destruct (w r) eqn:E; [discriminate Hnull|].
      split; [exists r; tauto|].
      intros ->. assert (w r = true) by (apply Hw; tauto). congruence.
    + intros [(r & Hr & Hid & Hnull & Hu) Hne]. exists r. split; [|tauto].
      apply in_update. exists r. split; [exact Hr|].
      destruct (w r) eqn:E; [|reflexivity].
      apply (Hw r Hr) in E. exfalso. apply Hne. rewrite <- Hu. tauto.
  - intros u t. rewrite Ha1, Ha, Hb, Hlocs. split.
    + intros (r' & Hr' & Hid & Harch & Hsome & Hu). apply in_update in Hr'.
      destruct Hr' as (r & Hr & ->). destruct (w r) eqn:E.
      * right. apply (Hw r Hr) in E. simpl in *. 
        split; [rewrite <- Hu; tauto|]. split; [symmetry; exact Harch|].
        exists r. tauto.
      * left. exists r. tauto.
    + intros [(r & Hr & Hid & Harch & Hsome & Hu) | (-> & -> & r & Hr & Hid & Hnull & Hu)].
      * exists r. split; [|tauto]. apply in_update. exists r. split; [exact Hr|].
        destruct (w r) eqn:E; [|reflexivity].
        apply (Hw r Hr) in E. exfalso. apply Hsome. rewrite <- Harch. tauto.
      * exists (set_loc_archived (Some (conn_now c)) r). split.
        -- apply in_update. exists r. split; [exact Hr|].
           replace (w r) with true by (symmetry; apply Hw; tauto). reflexivity.
        -- simpl. repeat split; try assumption. discriminate.
  - rewrite Hres, <- Hactive. split; [intros H; injection H; trivial | intros ->; reflexivity].
  - rewrite Hres, <- Hactive.
    destruct (existsb w (locations c)); split; try congruence; intros H; exfalso; apply H;
      reflexivity.
Qed.

(** The location of dataset 101 in the example catalogue. *)
Lemma archive_location_moves_uri_witness :
  exists listed,
    result_of (get_locations 101) (after (archive_location 101 (make_uri "file" "///data/a.tif"))
                                         example_conn) = Ok listed
    /\ ~ In (make_uri "file" "///data/a.tif") listed.
Proof.
  assert (Hclean : clean_schemes example_conn).
  { intros l Hin. simpl in Hin. destruct Hin as [<- | []]. vm_compute. intuition discriminate. }
  assert (Hscheme : ~ In ":"%char (list_ascii_of_string "file"))
    by (vm_compute; intuition discriminate).
  pose proof (@archive_location_moves_uri example_conn 101 "file" "///data/a.tif"
                Hclean Hscheme) as H.
  cbv zeta in H. destruct H as (before & listed & ab & aa & _ & Hl & _ & _ & Hmove & _).
  exists listed. split; [exact Hl|]. intros Hin. apply Hmove in Hin. apply (proj2 Hin).
  reflexivity.
Defined.

(** X15. When no stored scheme holds a [:], [remove_location] of
    [scheme:body] takes that URI, and no other, out of what [get_locations]
    and [get_archived_locations] list, and returns True exactly when one of
    them listed it. *)
Theorem remove_location_forgets
        (c : Connection) (dataset_id : UUID) (scheme body : string)
        (Hclean : clean_schemes c)
        (Hscheme : ~ In ":"%char (list_ascii_of_string scheme)) :
  let uri_ := make_uri scheme body in
  let c1 := after (remove_location dataset_id uri_) c in
  exists before listed archived_before archived,
    result_of (get_locations dataset_id) c = Ok before
    /\ result_of (get_locations dataset_id) c1 = Ok listed
    /\ result_of (get_archived_locations dataset_id) c = Ok archived_before
    /\ result_of (get_archived_locations dataset_id) c1 = Ok archived
    /\ (forall u, In u listed <-> In u before /\ u <> uri_)
    /\ (forall u t, In (u, t) archived <-> In (u, t) archived_before /\ u <> uri_)
    /\ (result_of (remove_location dataset_id uri_) c = Ok true
        <-> In uri_ before \/ exists t, In (uri_, t) archived_before).
Proof.
  intros uri_ c1.
  set (key := location_key dataset_id scheme body).
  assert (Hrun : result_of (remove_location dataset_id uri_) c = Ok (existsb key (locations c))
                 /\ locations c1 = filter (fun r => negb (key r)) (locations c)).
  { subst c1 uri_.
    unfold result_of, after, remove_location, bind, lift, ret,
      execute_on_locations, locations, make_uri.
    rewrite (split_uri_first_colon _ body Hscheme).
    cbn [fst snd conn_db with_db with_locations executed tbl_dataset_location].
    rewrite rowcount_positive. split; reflexivity. }
  destruct Hrun as [Hres Hlocs].
  destruct (get_locations_listing c dataset_id) as (before & Hbefore & Hb).
  destruct (get_locations_listing c1 dataset_id) as (listed & Hlisted & Hl).
  destruct (get_archived_locations_listing c dataset_id) as (ab & Hab & Ha).
  destruct (get_archived_locations_listing c1 dataset_id) as (aa & Haa & Ha1).
  exists before, listed, ab, aa.
  repeat (split; [assumption|]).
  assert (Hkey : forall r, In r (locations c) ->
                           (key r = true <-> loc_dataset_ref r = dataset_id /\ uri r = uri_)).
  { intros r Hr. apply (@key_iff_uri c dataset_id scheme body r Hclean Hscheme Hr). }
  assert (Hkept : forall r, In r (locations c1) <-> In r (locations c) /\ key r = false).
  { intros r. rewrite Hlocs, filter_In, negb_true_iff. reflexivity. }
  split; [|split].
  - intros u. rewrite Hl, Hb. split.
    + intros (r & Hr & Hid & Hnull & Hu). apply Hkept in Hr. destruct Hr as [Hr Hk].
      split; [exists r; tauto|]. intros ->.
      assert (key r = true) by (apply Hkey; tauto). congruence.
    + intros [(r & Hr & Hid & Hnull & Hu) Hne]. exists r. split; [|tauto].
      apply Hkept. split; [exact Hr|]. apply not_true_is_false. intros Hk.
      apply (Hkey r Hr) in Hk. apply Hne. rewrite <- Hu. tauto.
  - intros u t. rewrite Ha1, Ha. split.
    + intros (r & Hr & Hid & Harch & Hsome & Hu). apply Hkept in Hr. destruct Hr as [Hr Hk].
      split; [exists r; tauto|]. intros ->.
      assert (key r = true) by (apply Hkey; tauto). congruence.
    + intros [(r & Hr & Hid & Harch & Hsome & Hu) Hne]. exists r. split; [|tauto].
      apply Hkept. split; [exact Hr|]. apply not_true_is_false. intros Hk.
      apply (Hkey r Hr) in Hk. apply Hne. rewrite <- Hu. tauto.
  - rewrite Hres. split.
    + intros H. injection H as H. apply existsb_exists in H. destruct H as (r & Hr & Hk).
      apply (Hkey r Hr) in Hk. destruct (loc_archived r) as [t|] eqn:E.
      * right. exists (Some t). apply Ha. exists r. repeat split; try tauto. discriminate.
      * left. apply Hb. exists r. tauto.
    + intros H. f_equal. apply existsb_exists.
      destruct H as [H | (t & H)].
      * apply Hb in H. destruct H as (r & Hr & Hid & _ & Hu).
        exists r. split; [exact Hr|]. apply Hkey; tauto.
      * apply Ha in H. destruct H as (r & Hr & Hid & _ & _ & Hu).
        exists r. split; [exact Hr|]. apply Hkey; tauto.
Qed.

(** The location of dataset 101 in the example catalogue. *)
Lemma remove_location_forgets_witness :
  exists listed,
    result_of (get_locations 101) (after (remove_location 101 (make_uri "file" "///data/a.tif"))
                                         example_conn) = Ok listed
    /\ ~ In (make_uri "file" "///data/a.tif") listed.
Proof.
  assert (Hclean : clean_schemes example_conn).
  { intros l Hin. simpl in Hin. destruct Hin as [<- | []]. vm_compute. intuition discriminate. }
  assert (Hscheme : ~ In ":"%char (list_ascii_of_string "file"))
    by (vm_compute; intuition discriminate).
  pose proof (@remove_location_forgets example_conn 101 "file" "///data/a.tif"
                Hclean Hscheme) as H.
  cbv zeta in H. destruct H as (before & listed & ab & aa & _ & Hl & _ & _ & Hmove & _).
  exists listed. split; [exact Hl|]. intros Hin. apply Hmove in Hin. apply (proj2 Hin).
  reflexivity.
Defined.

Lemma existsb_same_in {R} (p q : R -> bool) (rows : list R) :
  (forall r, In r rows -> p r = q r) -> existsb p rows = existsb q rows.
Proof.
  induction rows as [|r rows IH]; intros H; [reflexivity|].
  simpl. rewrite (H r (or_introl eq_refl)), IH; [reflexivity|].
  intros x Hx. apply H. right. exact Hx.
Qed.

Lemma existsb_of_map {R S} (p : S -> bool) (f : R -> S) (rows : list R) :
  existsb p (map f rows) = existsb (fun r => p (f r)) rows.
Proof.
  induction rows as [|r rows IH]; [reflexivity|]. simpl. rewrite IH. reflexivity.
Qed.

(** X16. When every row of [scheme:body] recorded for the dataset is active,
    [archive_location] followed by [restore_location] leaves the location
    table as it was, and the two calls return the same answer: whether there
    is such a row. *)
Theorem restore_after_archive_location
        (c : Connection) (dataset_id : UUID) (scheme body : string)
        (Hscheme : ~ In ":"%char (list_ascii_of_string scheme))
        (Hactive : forall r, In r (locations c) ->
                             location_key dataset_id scheme body r = true ->
                             loc_archived r = None) :
  let uri_ := make_uri scheme body in
  let c1 := after (archive_location dataset_id uri_) c in
  let c2 := after (restore_location dataset_id uri_) c1 in
  locations c2 = locations c
  /\ result_of (archive_location dataset_id uri_) c
     = Ok (existsb (location_key dataset_id scheme body) (locations c))
  /\ result_of (restore_location dataset_id uri_) c1
     = Ok (existsb (location_key dataset_id scheme body) (locations c)).
Proof.
  intros uri_ c1 c2. subst c2 c1 uri_.
  unfold result_of, after, archive_location, restore_location, bind, lift, ret,
    execute_on_locations, locations, make_uri in *.
  rewrite (split_uri_first_colon _ body Hscheme).
  cbn [fst snd conn_db with_db with_locations executed tbl_dataset_location conn_now].
  rewrite !rowcount_positive.
  set (key := location_key dataset_id scheme body) in *.
  set (rows := tbl_dataset_location (conn_db c)) in *.
  set (now := conn_now c).
  assert (Hstep : forall r, In r rows ->
             let r1 := if key r && is_null (loc_archived r)
                       then set_loc_archived (Some now) r else r in
             (key r1 && negb (is_null (loc_archived r1))) = key r
             /\ (if key r1 && negb (is_null (loc_archived r1))
                 then set_loc_archived None r1 else r1) = r).
  { intros r Hr. pose proof (Hactive r Hr) as Hnull. cbv zeta.
    destruct (key r) eqn:Hk.
    - rewrite (Hnull eq_refl). cbn [is_null andb].
      change (key (set_loc_archived (Some now) r)) with (key r). rewrite Hk.
      cbn [loc_archived set_loc_archived is_null negb andb]. split; [reflexivity|].
      rewrite <- (Hnull eq_refl). destruct r; reflexivity.
    - cbn [andb]. rewrite Hk. cbn [andb]. split; reflexivity. }
  split; [|split].
  - unfold sql_update. rewrite map_map.
    rewrite <- (map_id rows) at 2. apply map_ext_in. intros r Hr.
    apply (Hstep r Hr).
  - f_equal. apply existsb_same_in. intros r Hr.
    destruct (key r) eqn:Hk; [|reflexivity]. rewrite (Hactive r Hr Hk). reflexivity.
  - f_equal. unfold sql_update. rewrite existsb_of_map.
    apply existsb_same_in. intros r Hr. apply (Hstep r Hr).
Qed.

(** The location of dataset 101 in the example catalogue is active. *)
Lemma restore_after_archive_location_witness :
  locations (after (restore_location 101 (make_uri "file" "///data/a.tif"))
                   (after (archive_location 101 (make_uri "file" "///data/a.tif"))
                          example_conn))
  = locations example_conn.
Proof.
  refine (proj1 (@restore_after_archive_location example_conn 101 "file" "///data/a.tif" _ _)).
  - vm_compute. intuition discriminate.
  - intros r Hin _. simpl in Hin. destruct Hin as [<- | []]. reflexivity.
Defined.

Lemma colon_decompose (u : string) :
  ~ In ":"%char (list_ascii_of_string u)
  \/ exists scheme body, u = make_uri scheme body
                         /\ ~ In ":"%char (list_ascii_of_string scheme).
Proof.
  induction u as [|a u IH].
  - left. simpl. tauto.
  - destruct (Ascii.eqb a ":"%char) eqn:E.
    + apply Ascii.eqb_eq in E. subst a. right. exists EmptyString, u. split; [reflexivity|].
      simpl. tauto.
    + apply Ascii.eqb_neq in E. destruct IH as [IH | (s & b & -> & Hs)].
      * left. simpl. intros [H | H]; [congruence | exact (IH H)].
      * right. exists (String a s), b. split; [reflexivity|].
        simpl. intros [H | H]; [congruence | exact (Hs H)].
Qed.

(** X17. Every location mutation keeps the stored schemes free of [:],
    whatever the URI it is given: what [insert_dataset_location] stores is
    the text before the first [:], and the other three store no scheme. *)
Theorem location_mutations_keep_clean_schemes
        (c : Connection) (dataset_id : UUID) (uri_ : string)
        (Hclean : clean_schemes c) :
  clean_schemes (after (insert_dataset_location dataset_id uri_) c)
  /\ clean_schemes (after (remove_location dataset_id uri_) c)
  /\ clean_schemes (after (archive_location dataset_id uri_) c)
  /\ clean_schemes (after (restore_location dataset_id uri_) c).
Proof.
  destruct (colon_decompose uri_) as [Hnone | (scheme & body & -> & Hscheme)].
  - pose proof (split_uri_no_colon _ Hnone) as Hsplit.
    unfold after, insert_dataset_location, remove_location, archive_location,
      restore_location, bind, lift.
    rewrite Hsplit. cbn [snd]. repeat split; exact Hclean.
  - pose proof (split_uri_first_colon _ body Hscheme) as Hsplit.
    unfold clean_schemes, after, insert_dataset_location, remove_location, archive_location,
      restore_location, bind, lift, ret, execute_on_locations, locations, make_uri in *.
    rewrite Hsplit.
    cbn [fst snd conn_db with_db with_locations executed next_location_id
           tbl_dataset_location conn_location_seq conn_now].
    split; [|split; [|split]]; intros l Hl.
    + unfold sql_insert_do_nothing in Hl.
      destruct (existsb _ (tbl_dataset_location (conn_db c))); [exact (Hclean l Hl)|].
      apply in_app_or in Hl. destruct Hl as [Hl | [<- | []]]; [exact (Hclean l Hl) | exact Hscheme].
    + unfold sql_delete in Hl. apply filter_In in Hl. exact (Hclean l (proj1 Hl)).
    + apply in_update in Hl. destruct Hl as (r & Hr & ->).
      destruct (_ && _); [exact (Hclean r Hr) | exact (Hclean r Hr)].
    + apply in_update in Hl. destruct Hl as (r & Hr & ->).
      destruct (_ && _); [exact (Hclean r Hr) | exact (Hclean r Hr)].
Qed.

(** A URI with two colons on the example catalogue. *)
Lemma location_mutations_keep_clean_schemes_witness :
  clean_schemes (after (insert_dataset_location 102 "s3://bucket/a:b") example_conn).
Proof.
  refine (proj1 (@location_mutations_keep_clean_schemes example_conn 102 "s3://bucket/a:b" _)).
  intros l Hin. simpl in Hin. destruct Hin as [<- | []]. vm_compute. intuition discriminate.
Defined.

(** ** Datasets by location *)

Lemma like_any_run (s : list ascii) : like ["%"%char] s = true.
Proof.
  induction s as [|x s IH]; [reflexivity|].
  change (like ["%"%char] (x :: s)) with (like [] (x :: s) || like ["%"%char] s).
  rewrite IH. apply orb_true_r.
Qed.

Lemma startswith_prefix (other : string) :
  plain other -> forall column, startswith column other = String.prefix other column.
Proof.
  unfold startswith.
  induction other as [|p other IH]; intros Hplain column.
  - cbn [list_ascii_of_string app]. rewrite like_any_run. destruct column; reflexivity.
  - destruct (Hplain p (or_introl eq_refl)) as (H1 & H2 & H3).
    assert (IH' := IH (fun ch Hch => Hplain ch (or_intror Hch))). clear IH.
    cbn [list_ascii_of_string app like].
    replace (Ascii.eqb p "%"%char) with false by (symmetry; apply Ascii.eqb_neq; exact H1).
    replace (Ascii.eqb p "_"%char) with false by (symmetry; apply Ascii.eqb_neq; exact H2).
    replace (Ascii.eqb p "\"%char) with false by (symmetry; apply Ascii.eqb_neq; exact H3).
    destruct column as [|ch column]; [reflexivity|].
    cbn [list_ascii_of_string String.prefix]. rewrite IH'.
    destruct (ascii_dec p ch) as [->|Hne].
    + rewrite Ascii.eqb_refl. reflexivity.
    + replace (Ascii.eqb p ch) with false by (symmetry; apply Ascii.eqb_neq; exact Hne).
      reflexivity.
Qed.

Lemma count_positive (ch : ascii) (s : string) :
  (0 <? count ch s) = true <-> In ch (list_ascii_of_string s).
Proof.
  assert (Hge : forall t, 0 <= count ch t).
  { induction t as [|a t IH]; simpl; [lia|]. destruct (Ascii.eqb a ch); lia. }
  induction s as [|a s IH]; simpl.
  - split; [discriminate | tauto].
  - destruct (Ascii.eqb a ch) eqn:E.
    + apply Ascii.eqb_eq in E. split; [intros _; left; exact E|].
      intros _. apply Z.ltb_lt. pose proof (Hge s). lia.
    + apply Ascii.eqb_neq in E. rewrite Z.add_0_l, IH. split; [tauto|].
      intros [H | H]; [congruence | exact H].
Qed.

Lemma from_rows_location_join (db : Database) (q : Select) :
  sel_joins q = [DatasetLocation] ->
  (forall t, t <> Dataset -> t <> DatasetLocation -> set_in t (select_tables q) = false) ->
  from_rows db q
  = flat_map (fun d => map (fun l => mkJoined d (Some l) None None None)
                           (filter (fun l => loc_dataset_ref l =? ds_id d)
                                   (tbl_dataset_location db)))
             (tbl_dataset db).
Proof.
  intros Hjoins Hnamed. unfold from_rows. rewrite Hjoins.
  rewrite (Hnamed MetadataType), (Hnamed Product), (Hnamed DatasetSource) by discriminate.
  cbn [set_in existsb Relation_eqb orb from_part].
  apply flat_map_ext. intros d.
  induction (filter (fun l => loc_dataset_ref l =? ds_id d) (tbl_dataset_location db))
    as [|l ls IH]; [reflexivity|].
  cbn [map flat_map app]. rewrite <- IH. reflexivity.
Qed.

Lemma records_of_one_dataset (db : Database) (test : LocationRow -> bool)
      (where_clause : Clause) (d : DatasetRow) (ls : list LocationRow) :
  (forall l, holds where_clause (mkJoined d (Some l) None None None) = test l) ->
  map (fun jr => DatasetRecord (jr_dataset jr) (active_uris db (jr_dataset jr)))
      (filter (fun jr => forallb (fun cl => holds cl jr) [where_clause])
              (map (fun l => mkJoined d (Some l) None None None)
                   (filter (fun l => loc_dataset_ref l =? ds_id d) ls)))
  = map (fun _ => DatasetRecord d (active_uris db d))
        (filter (fun l => (loc_dataset_ref l =? ds_id d) && test l) ls).
Proof.
  intros Htest.
  set (W := fun jr => forallb (fun cl => holds cl jr) [where_clause]).
  assert (HW : forall l, W (mkJoined d (Some l) None None None) = test l).
  { intros l. unfold W. cbn [forallb]. rewrite Htest. apply andb_true_r. }
  clearbody W.
  induction ls as [|l ls IH]; [reflexivity|].
  cbn [filter]. destruct (loc_dataset_ref l =? ds_id d); cbn [andb]; [|exact IH].
  cbn [map filter]. rewrite HW.
  destruct (test l); cbn [map jr_dataset]; rewrite IH; reflexivity.
Qed.

Lemma records_of_location_rows (db : Database) (test : LocationRow -> bool)
      (where_clause : Clause) :
  (forall d l, holds where_clause (mkJoined d (Some l) None None None) = test l) ->
  map (fun jr => DatasetRecord (jr_dataset jr) (active_uris db (jr_dataset jr)))
      (filter (fun jr => forallb (fun cl => holds cl jr) [where_clause])
              (flat_map (fun d => map (fun l => mkJoined d (Some l) None None None)
                                      (filter (fun l => loc_dataset_ref l =? ds_id d)
                                              (tbl_dataset_location db)))
                        (tbl_dataset db)))
  = records_by_location db test.
Proof.
  intros Htest. unfold records_by_location.
  induction (tbl_dataset db) as [|d ds IH]; [reflexivity|].
  cbn [flat_map]. rewrite filter_app, map_app, IH. f_equal.
  apply records_of_one_dataset. intros l. apply Htest.
Qed.

(** X18. [get_datasets_for_location] raises ValueError for a URI without [:]
    and for a mode other than exact and prefix, in both cases before any
    statement is executed; with no mode given it runs as exact when the text
    after the first [:] holds a [#] and as prefix otherwise. *)
Theorem get_datasets_for_location_mode (c : Connection) :
  (forall uri_ mode,
      ~ In ":"%char (list_ascii_of_string uri_) ->
      get_datasets_for_location uri_ mode c = (Raise (ValueError "Not a URI"), c))
  /\ (forall scheme body mode,
         ~ In ":"%char (list_ascii_of_string scheme) ->
         mode <> "exact" -> mode <> "prefix" ->
         get_datasets_for_location (make_uri scheme body) (Some mode) c
         = (Raise (ValueError (String.append "Unsupported query mode " mode)), c))
  /\ (forall scheme body,
         ~ In ":"%char (list_ascii_of_string scheme) ->
         (In "#"%char (list_ascii_of_string body) ->
          get_datasets_for_location (make_uri scheme body) None c
          = get_datasets_for_location (make_uri scheme body) (Some "exact") c)
         /\ (~ In "#"%char (list_ascii_of_string body) ->
             get_datasets_for_location (make_uri scheme body) None c
             = get_datasets_for_location (make_uri scheme body) (Some "prefix") c)).
Proof.
  split; [|split].
  - intros uri_ mode Hnone. unfold get_datasets_for_location, bind, lift.
    rewrite (split_uri_no_colon _ Hnone). reflexivity.
  - intros scheme body mode Hscheme Hexact Hprefix.
    unfold get_datasets_for_location, bind, lift, make_uri.
    rewrite (split_uri_first_colon _ body Hscheme).
    replace (String.eqb mode "exact") with false
      by (symmetry; apply String.eqb_neq; exact Hexact).
    replace (String.eqb mode "prefix") with false
      by (symmetry; apply String.eqb_neq; exact Hprefix).
    reflexivity.
  - intros scheme body Hscheme.
    unfold get_datasets_for_location, bind, lift, make_uri.
    rewrite (split_uri_first_colon _ body Hscheme).
    split; intros Hhash.
    + replace (0 <? count "#" body) with true
        by (symmetry; apply count_positive; exact Hhash).
      reflexivity.
    + replace (0 <? count "#" body) with false
        by (symmetry; apply not_true_is_false; intros H; apply count_positive in H;
            exact (Hhash H)).
      reflexivity.
Qed.

(** A bare path, and a mode the module does not know. *)
Lemma get_datasets_for_location_mode_witness :
  get_datasets_for_location "/data/a.tif" None example_conn
  = (Raise (ValueError "Not a URI"), example_conn)
  /\ get_datasets_for_location (make_uri "file" "///data") (Some "fuzzy") example_conn
     = (Raise (ValueError "Unsupported query mode fuzzy"), example_conn).
Proof.
  pose proof (@get_datasets_for_location_mode example_conn) as (Hbare & Hmode & _).
  split.
  - apply Hbare. vm_compute. intuition discriminate.
  - apply (Hmode "file" "///data" "fuzzy"); [vm_compute; intuition discriminate | |];
      discriminate.
Defined.

(** X19. In exact mode [get_datasets_for_location] returns one record for
    each dataset and each location row of it, archived or not, whose scheme
    and body are those of the URI; in prefix mode, for a body without [%],
    [_] and backslash, one for each location row whose scheme is that of the
    URI and whose body starts with the body of the URI. *)
Theorem get_datasets_for_location_rows
        (c : Connection) (scheme body : string)
        (Hscheme : ~ In ":"%char (list_ascii_of_string scheme)) :
  result_of (get_datasets_for_location (make_uri scheme body) (Some "exact")) c
  = Ok (records_by_location (conn_db c)
          (fun l => String.eqb (loc_uri_scheme l) scheme && String.eqb (loc_uri_body l) body))
  /\ (plain body ->
      result_of (get_datasets_for_location (make_uri scheme body) (Some "prefix")) c
      = Ok (records_by_location (conn_db c)
              (fun l => String.eqb (loc_uri_scheme l) scheme
                        && String.prefix body (loc_uri_body l)))).
Proof.
  unfold result_of, get_datasets_for_location, bind, lift, make_uri.
  rewrite (split_uri_first_colon _ body Hscheme).
  cbn [String.eqb Ascii.eqb Bool.eqb andb fst].
  unfold execute_select, fetch, selected_rows. cbn [fst].
  split; [|intros Hplain];
    (rewrite from_rows_location_join;
     [|reflexivity|intros t H1 H2; destruct t; try congruence; reflexivity]);
    cbn [where_ join select sel_columns sel_limit sel_where take app];
    apply f_equal; apply records_of_location_rows; intros d l.
  - cbn [holds forallb eval_column on_row jr_location].
    rewrite andb_true_r. reflexivity.
  - cbn [holds forallb eval_column on_row jr_location].
    rewrite (startswith_prefix Hplain), andb_true_r. reflexivity.
Qed.

(** Everything under a directory of the example catalogue. *)
Lemma get_datasets_for_location_rows_witness :
  result_of (get_datasets_for_location (make_uri "file" "///data") (Some "prefix")) example_conn
  = Ok (records_by_location (conn_db example_conn)
          (fun l => String.eqb (loc_uri_scheme l) "file"
                    && String.prefix "///data" (loc_uri_body l))).
Proof.
  refine (proj2 (@get_datasets_for_location_rows example_conn "file" "///data" _) _).
  - vm_compute. intuition discriminate.
  - intros ch Hin. vm_compute in Hin.
    repeat (destruct Hin as [<- | Hin]; [repeat split; discriminate|]). destruct Hin.
Defined.

Example datasets_for_location_on_example :
  result_of (get_datasets_for_location "file:///data" None) example_conn
  = Ok [DatasetRecord (mkDataset 101 1 (Some 1) (DDict [("format", DStr "GeoTIFF")])
                                 10 "odc" None)
                      ["file:///data/a.tif"]]
  /\ result_of (get_datasets_for_location "file:///data/_.tif" None) example_conn
     = result_of (get_datasets_for_location "file:///data/a.tif" None) example_conn.
Proof. split; vm_compute; reflexivity. Qed.

(** ** Products and their fields *)




(** X21. [update_product] of a name no product carries raises TypeError
    ([first] is None), leaves the database as it was and does not call the
    index/view builder. *)
Theorem update_product_unknown_name
        (c : Connection) (name : string) (metadata : Doc) (metadata_type_id : Z)
        (search_fields : list (string * PgField)) (definition : Doc)
        (update_metadata_type concurrently : bool)
        (Hunknown : forall q, In q (products c) -> prod_name q <> name) :
  let call := update_product name metadata metadata_type_id search_fields definition
                             update_metadata_type concurrently in
  result_of call c = Raise TypeError
  /\ conn_db (after call c) = conn_db c
  /\ conn_dynamic (after call c) = conn_dynamic c.
Proof.
  intros call. subst call.
  assert (Hnone : existsb (fun q => String.eqb (prod_name q) name) (tbl_product (conn_db c))
                  = false).
  { apply not_true_is_false. intros H. apply existsb_exists in H.
    destruct H as (q & Hq & Hname). apply String.eqb_eq in Hname. exact (Hunknown q Hq Hname). }
  unfold result_of, after, update_product, bind, lift, ret, execute_update_product.
  cbn [fst snd]. rewrite (filter_none _ _ Hnone), (update_untouched _ _ _ Hnone).
  cbn [map first_0 fst snd conn_db conn_dynamic executed with_db]. repeat split.
  destruct (conn_db c); reflexivity.
Qed.

(** A name the example catalogue does not hold. *)
Lemma update_product_unknown_name_witness :
  result_of (update_product "ls5_nbar" (DDict []) 1 example_fields (DDict []) false false)
            example_conn
  = Raise TypeError.
Proof.
  refine (proj1 (@update_product_unknown_name example_conn "ls5_nbar" (DDict []) 1
                   example_fields (DDict []) false false _)).
  intros q Hin. simpl in Hin. destruct Hin as [<- | [<- | []]]; discriminate.
Defined.

(** X22. An extraction that fails with an exception class other than the
    three absorbed ones, on a field before which every field extracts or
    fails with an absorbed class, makes [_get_active_field_names] and
    [_setup_product_fields] raise that exception; nothing is handed to the
    index/view builder. *)
Theorem setup_product_fields_lets_other_failures_through
        (c : Connection) (id_ : Z) (name : string)
        (before rest : list (string * PgField)) (key : string) (f : PgField)
        (extract_ : Doc -> Result (option Value)) (e : Exception) (metadata_doc : Doc)
        (rebuild_indexes rebuild_view concurrently : bool)
        (Hbefore : forall g extract_g e', In g (values before) -> extract g = Some extract_g ->
                                          extract_g metadata_doc = Raise e' -> absorbed e' = true)
        (Hextract : extract f = Some extract_)
        (Hfails : extract_ metadata_doc = Raise e)
        (Hother : absorbed e = false) :
  let fields := before ++ (key, f) :: rest in
  _get_active_field_names fields metadata_doc = Raise e
  /\ _setup_product_fields id_ name fields metadata_doc rebuild_indexes rebuild_view concurrently c
     = (Raise e, c).
Proof.
  intros fields. subst fields.
  assert (Hnames : _get_active_field_names (before ++ (key, f) :: rest) metadata_doc = Raise e).
  { unfold _get_active_field_names, values in *. rewrite map_app. cbn [map snd].
    induction before as [|[k g] before IH]; cbn [map snd app].
    - apply (@active_names_other_failure f (map snd rest) metadata_doc extract_ e
                                         Hextract Hfails Hother).
    - assert (IH' := IH (fun g' ex e' Hin => Hbefore g' ex e' (or_intror Hin))). clear IH.
      cbn [active_names_of]. rewrite IH'.
      destruct (extract g) as [extract_g|] eqn:Hg; [|reflexivity].
      destruct (extract_g metadata_doc) as [[v|]|e'] eqn:Hrun; try reflexivity.
      rewrite (Hbefore g extract_g e' (or_introl eq_refl) Hg Hrun). reflexivity. }
  split; [exact Hnames|].
  unfold _setup_product_fields, bind, lift. rewrite Hnames. reflexivity.
Qed.

(** A bare string where a document is expected. *)
Lemma setup_product_fields_lets_other_failures_through_witness :
  _get_active_field_names example_fields (DStr "GeoTIFF") = Raise TypeError.
Proof.
  refine (proj1 (@setup_product_fields_lets_other_failures_through
                   example_conn 1 "ls8_nbar" [("product", product_field)]
                   [("label", label_field)] "format" format_field
                   (fun doc => doc_string doc "format") TypeError (DStr "GeoTIFF")
                   false false true _ eq_refl eq_refl eq_refl)).
  intros g extract_g e' Hin Hex. simpl in Hin. destruct Hin as [<- | []]. discriminate Hex.
Defined.

(** ** Metadata types *)

Lemma insert_by_name_permutation (r : ProductRow) (l : list ProductRow) :
  Permutation (insert_by_name r l) (r :: l).
Proof.
  induction l as [|x t IH]; simpl; [apply Permutation_refl|].
  destruct (String.leb (prod_name r) (prod_name x)); [apply Permutation_refl|].
  apply perm_trans with (x :: r :: t); [constructor; exact IH | constructor].
Qed.

Lemma order_by_name_permutation (l : list ProductRow) : Permutation (order_by_name l) l.
Proof.
  induction l as [|r l IH]; simpl; [constructor|].
  apply perm_trans with (r :: order_by_name l);
    [apply insert_by_name_permutation | constructor; exact IH].
Qed.

Lemma bind_ok {A B} (m : M A) (k : A -> M B) (c c' : Connection) (a : A) :
  m c = (Ok a, c') -> bind m k c = k a c'.
Proof. intros H. unfold bind. rewrite H. reflexivity. Qed.

Lemma setup_one_product
      (fields : list (string * PgField)) (rebuild_indexes rebuild_views concurrently : bool)
      (p : ProductRow) (metadata_doc : Doc) (names : list string) (c : Connection) :
  getitem (prod_definition p) "metadata" = Ok metadata_doc ->
  _get_active_field_names fields metadata_doc = Ok names ->
  exists call,
    (metadata_doc <- lift (getitem (prod_definition p) "metadata") ;;
     _setup_product_fields (prod_id p) (prod_name p) fields metadata_doc
                           rebuild_indexes rebuild_views concurrently)%api c
    = (Ok tt, log_dynamic c call)
    /\ handed_for fields rebuild_indexes rebuild_views concurrently p call.
Proof.
  intros Hmd Hnames.
  unfold bind, lift, _setup_product_fields, check_dynamic_fields.
  rewrite Hmd. cbn [fst snd]. rewrite Hnames.
  eexists. split; [reflexivity|].
  unfold handed_for. cbn. repeat split. exists metadata_doc. split; assumption.
Qed.

Lemma setup_each_product
      (fields : list (string * PgField)) (rebuild_indexes rebuild_views concurrently : bool)
      (prods : list ProductRow) :
  (forall p, In p prods ->
             exists metadata_doc names,
               getitem (prod_definition p) "metadata" = Ok metadata_doc
               /\ _get_active_field_names fields metadata_doc = Ok names) ->
  forall c,
    let loop :=
      for_each prods
               (fun product =>
                  metadata_doc <- lift (getitem (prod_definition product) "metadata") ;;
                  _setup_product_fields (prod_id product) (prod_name product) fields
                                        metadata_doc rebuild_indexes rebuild_views
                                        concurrently)%api in
    result_of loop c = Ok tt
    /\ conn_db (after loop c) = conn_db c
    /\ exists calls,
        conn_dynamic (after loop c) = conn_dynamic c ++ calls
        /\ Forall2 (handed_for fields rebuild_indexes rebuild_views concurrently) prods calls.
Proof.
  induction prods as [|p prods IH]; intros Hmeta c loop; subst loop.
  - cbn [for_each]. unfold result_of, after, ret. cbn [fst snd].
    split; [reflexivity|]. split; [reflexivity|].
    exists []. split; [symmetry; apply app_nil_r | constructor].
  - destruct (Hmeta p (or_introl eq_refl)) as (md & names & Hmd & Hnames).
    assert (IH' := IH (fun q Hq => Hmeta q (or_intror Hq))). clear IH.
    destruct (@setup_one_product fields rebuild_indexes rebuild_views concurrently p md names c
                                 Hmd Hnames) as (call & Hstep & Hcall).
    destruct (IH' (log_dynamic c call)) as (Hres & Hdb & calls & Hlog & Hcalls).
    cbv zeta in Hres, Hdb, Hlog.
    cbn [for_each]. unfold result_of, after in *.
    rewrite !(@bind_ok _ _ _ _ _ _ _ Hstep).
    split; [exact Hres|]. split; [exact Hdb|].
    exists (call :: calls). split; [|constructor; assumption].
    rewrite Hlog. cbn [conn_dynamic log_dynamic]. rewrite <- app_assoc. reflexivity.
Qed.

(** X23. When every product that refers to the metadata type has a
    [metadata] entry in its definition on which field extraction raises
    nothing unabsorbed, [_setup_metadata_type_fields] hands the index/view
    builder one call for each of those products, with that product's name,
    the fields active on that product's own metadata and the given flags,
    and none for any other product; it leaves the database as it was. *)
Theorem setup_metadata_type_fields_cascades
        (c : Connection) (id_ : Z) (name : string) (fields : list (string * PgField))
        (rebuild_indexes rebuild_views concurrently : bool)
        (Hmeta : forall p, In p (products c) -> prod_metadata_type_ref p = id_ ->
                           exists metadata_doc names,
                             getitem (prod_definition p) "metadata" = Ok metadata_doc
                             /\ _get_active_field_names fields metadata_doc = Ok names) :
  let call := _setup_metadata_type_fields id_ name fields
                                          rebuild_indexes rebuild_views concurrently in
  result_of call c = Ok tt
  /\ conn_db (after call c) = conn_db c
  /\ exists prods calls,
      Permutation prods (filter (fun p => prod_metadata_type_ref p =? id_) (products c))
      /\ conn_dynamic (after call c) = conn_dynamic c ++ calls
      /\ Forall2 (handed_for fields rebuild_indexes rebuild_views concurrently) prods calls.
Proof.
  intros call. subst call.
  set (prods := order_by_name (filter (fun p => prod_metadata_type_ref p =? id_)
                                      (products c))).
  assert (Hperm : Permutation prods (filter (fun p => prod_metadata_type_ref p =? id_)
                                            (products c)))
    by apply order_by_name_permutation.
  assert (Hprods : forall p, In p prods ->
                             exists metadata_doc names,
                               getitem (prod_definition p) "metadata" = Ok metadata_doc
                               /\ _get_active_field_names fields metadata_doc = Ok names).
  { intros p Hp. apply (Permutation_in _ Hperm) in Hp. apply filter_In in Hp.
    destruct Hp as [Hp Hid]. apply Z.eqb_eq in Hid. exact (Hmeta p Hp Hid). }
  destruct (@setup_each_product fields rebuild_indexes rebuild_views concurrently prods Hprods
                                (executed c))
    as (Hres & Hdb & calls & Hlog & Hcalls).
  cbv zeta in Hres, Hdb, Hlog.
  unfold result_of, after, _setup_metadata_type_fields, bind, _get_products_for_metadata_type.
  fold (products c). fold prods.
  unfold result_of, after in Hres, Hdb, Hlog.
  destruct (for_each prods _ (executed c)) as [[[]|e] c'] eqn:E;
    cbn [fst snd] in *; [|discriminate Hres].
  split; [reflexivity|]. split; [exact Hdb|].
  exists prods, calls. split; [exact Hperm|]. split; [exact Hlog | exact Hcalls].
Qed.

(** Both products of the example catalogue refer to metadata type 1. *)
Lemma setup_metadata_type_fields_cascades_witness :
  result_of (_setup_metadata_type_fields 1 "eo" example_fields false true false) example_conn
  = Ok tt.
Proof.
  refine (proj1 (@setup_metadata_type_fields_cascades example_conn 1 "eo" example_fields
                   false true false _)).
  intros p Hin _. simpl in Hin.
  destruct Hin as [<- | [<- | []]]; eexists; eexists; split; reflexivity.
Defined.

(** ** Short time ranges *)



(** ** Selecting the URI field *)

Lemma filter_joined_by_dataset (W : JoinedRow -> bool) (keep : bool) (d : DatasetRow)
      (ls : list LocationRow) :
  (forall l, W (mkJoined d (Some l) None None None) = keep) ->
  filter W (map (fun l => mkJoined d (Some l) None None None) ls)
  = if keep then map (fun l => mkJoined d (Some l) None None None) ls else [].
Proof.
  intros HW. induction ls as [|l ls IH]; [destruct keep; reflexivity|].
  cbn [map filter]. rewrite HW, IH. destruct keep; reflexivity.
Qed.

(** X25. Selecting the native [uri] field makes a search return one row per
    location row of each dataset whose [archived] is NULL, labelled [uri]:
    a dataset with several locations appears several times, a dataset
    with none does not appear, and archived locations are returned too. *)
Theorem search_selecting_uri_row_per_location (c : Connection) :
  result_of (search_datasets [] None (Some [uri_field]) false None) c
  = Ok (flat_map (fun d => map (fun l => Labelled [("uri", VStr (uri l))])
                               (filter (fun l => loc_dataset_ref l =? ds_id d) (locations c)))
                 (filter (fun d => is_null (ds_archived d)) (datasets c))).
Proof.
  unfold result_of, search_datasets, bind, lift.
  change (search_datasets_query [] None (Some [uri_field]) false None)
    with (Ok (mkSelect (labelled [uri_field]) [Dataset] [DatasetLocation]
                       [and_ [archived_is_null]] None)).
  unfold execute_select, fetch, selected_rows. cbn [fst sel_columns sel_limit sel_where take].
  rewrite from_rows_location_join;
    [|reflexivity|intros t H1 H2; destruct t; try congruence; reflexivity].
  f_equal. unfold datasets, locations.
  induction (tbl_dataset (conn_db c)) as [|d ds IH]; [reflexivity|].
  cbn [flat_map filter]. rewrite filter_app, map_app, IH.
  rewrite filter_joined_by_dataset with (keep := is_null (ds_archived d)).
  - destruct (is_null (ds_archived d)); cbn [flat_map map app]; [|reflexivity].
    f_equal. rewrite map_map. reflexivity.
  - intros l. cbn [forallb holds]. rewrite archived_is_null_holds.
    cbn [jr_dataset]. rewrite !andb_true_r. reflexivity.
Qed.

(** ** Re-adding an archived location *)

(** X26. When no stored scheme holds a [:] and [scheme:body] is recorded for
    the dataset, then after [archive_location] an [insert_dataset_location]
    of the same URI returns False, changes no row, and the URI is still
    absent from what [get_locations] lists: inserting does not revive an
    archived location. *)
Theorem insert_does_not_revive_archived_location
        (c : Connection) (dataset_id : UUID) (scheme body : string)
        (Hclean : clean_schemes c)
        (Hscheme : ~ In ":"%char (list_ascii_of_string scheme))
        (Hrecorded : existsb (location_key dataset_id scheme body) (locations c) = true) :
  let uri_ := make_uri scheme body in
  let c1 := after (archive_location dataset_id uri_) c in
  let c2 := after (insert_dataset_location dataset_id uri_) c1 in
  result_of (insert_dataset_location dataset_id uri_) c1 = Ok false
  /\ locations c2 = locations c1
  /\ exists listed, result_of (get_locations dataset_id) c2 = Ok listed /\ ~ In uri_ listed.
Proof.
  intros uri_ c1 c2.
  set (key := location_key dataset_id scheme body).
  set (w := fun r => key r && is_null (loc_archived r)).
  assert (Hlocs1 : locations c1
                   = sql_update w (set_loc_archived (Some (conn_now c))) (locations c)).
  { subst c1 uri_. unfold after, archive_location, bind, lift, ret,
      execute_on_locations, locations, make_uri.
    rewrite (split_uri_first_colon _ body Hscheme). reflexivity. }
  assert (Hstill : existsb key (locations c1) = true).
  { rewrite Hlocs1, existsb_update_same; [exact Hrecorded | reflexivity]. }
  assert (Hrun : result_of (insert_dataset_location dataset_id uri_) c1 = Ok false
                 /\ locations c2 = locations c1).
  { subst c2 uri_.
    unfold result_of, after, insert_dataset_location, bind, lift, ret,
      execute_on_locations, locations, make_uri in *.
    rewrite (split_uri_first_colon _ body Hscheme).
    cbn [fst snd conn_db with_db with_locations executed next_location_id
           tbl_dataset_location conn_location_seq conn_now].
    rewrite insert_rowcount_positive.
    assert (Hkey : forall rows,
               existsb (fun r => String.eqb (loc_uri_scheme r) scheme
                                 && String.eqb (loc_uri_body r) body
                                 && (loc_dataset_ref r =? dataset_id)) rows
               = existsb key rows).
    { intros rows. apply existsb_same. intros r. unfold key, location_key.
      destruct (loc_dataset_ref r =? dataset_id), (String.eqb (loc_uri_scheme r) scheme),
        (String.eqb (loc_uri_body r) body); reflexivity. }
    unfold sql_insert_do_nothing. rewrite !Hkey, Hstill. split; reflexivity. }
  destruct Hrun as [Hres Hlocs2]. split; [exact Hres|]. split; [exact Hlocs2|].
  destruct (get_locations_listing c2 dataset_id) as (listed & Hlisted & Hl).
  exists listed. split; [exact Hlisted|].
  rewrite Hl, Hlocs2, Hlocs1. intros (r' & Hr' & Hid & Hnull & Hu).
  apply in_update in Hr'. destruct Hr' as (r & Hr & ->).
  destruct (w r) eqn:E; [discriminate Hnull|].
  assert (Hk : key r = true).
  { apply (@key_iff_uri c dataset_id scheme body r Hclean Hscheme Hr). split; assumption. }
  unfold w in E. rewrite Hk, Hnull in E. discriminate E.
Qed.

(** The location of dataset 101 in the example catalogue. *)
Lemma insert_does_not_revive_archived_location_witness :
  result_of (insert_dataset_location 101 (make_uri "file" "///data/a.tif"))
            (after (archive_location 101 (make_uri "file" "///data/a.tif")) example_conn)
  = Ok false.
Proof.
  refine (proj1 (@insert_does_not_revive_archived_location
                   example_conn 101 "file" "///data/a.tif" _ _ eq_refl)).
  - intros l Hin. simpl in Hin. destruct Hin as [<- | []]. vm_compute. intuition discriminate.
  - vm_compute. intuition discriminate.
Defined.
